(** * InstaScraper backend ([app.py]): a shallow embedding and its properties

    The backend fetches public profile metadata for a fixed list of
    usernames, keeps the result in a process-wide cache mirrored in a JSON
    file, and serves the cache over a small HTTP API.

    Python code is embedded as follows:
    - functions that raise, sleep, read the clock, touch the cache file or
      the global [cache] dict live in a state-and-exception monad [M];
    - the scraping library, the wall clock and the file system are oracles
      gathered in [Env]: the k-th call gets the k-th answer;
    - Python [int] is [Z], Python [float] is an IEEE binary64 value of
      [spec_float], [datetime] is a number of microseconds. *)

From Stdlib Require Import ZArith List String Ascii Bool Lia.
From Stdlib Require Import Permutation Sorted.
From Stdlib Require Import Floats.SpecFloat.
From Equations Require Import Equations.
Import ListNotations.

Local Open Scope string_scope.
Local Open Scope list_scope.
Local Open Scope Z_scope.

(** ** Exceptions and results *)

(** The exception classes the program can meet.  The three first ones are
    the classes [fetch_profile_data] tells apart: instaloader's
    [ProfileNotExistsException], its [ConnectionException] (with its
    subclasses), and every other subclass of [Exception] the library may
    raise.  Each carries the text [str(e)] gives. *)
Inductive exn : Type :=
| ProfileNotExistsException (msg : string)
| ConnectionException (msg : string)
| OtherException (msg : string)
| ZeroDivisionError
| OverflowError
| ValueError
| TypeError
| KeyError
| OSError.

Definition exn_str (e : exn) : string :=
  match e with
  | ProfileNotExistsException msg => msg
  | ConnectionException msg => msg
  | OtherException msg => msg
  | ZeroDivisionError => "division by zero"
  | OverflowError => "integer division result too large for a float"
  | ValueError => "invalid literal"
  | TypeError => "unsupported operand"
  | KeyError => "'profiles'"
  | OSError => "I/O error"
  end.

Inductive result (A : Type) : Type :=
| Ok (a : A)
| Raise (e : exn).
Arguments Ok {A} a.
Arguments Raise {A} e.

Definition result_bind {A B} (r : result A) (k : A -> result B) : result B :=
  match r with
  | Ok a => k a
  | Raise e => Raise e
  end.

(** ** Python floats

    A Python [float] is an IEEE 754 binary64.  The operations are those of
    the Standard Library's executable specification, at precision 53 and
    maximal exponent 1024. *)
Module PyFloat.

Definition float := spec_float.

Definition prec : Z := 53.
Definition emax : Z := 1024.

Definition pos_zero : float := S754_zero false.

(** The exponent a binary64 of the given magnitude is rounded at. *)
Definition fexp64 : Z -> Z := fexp prec emax.

(** [float(n)] for an integer that needs no rounding, and the exact
    operand of an integer division otherwise. *)
Definition of_Z (n : Z) : float :=
  match n with
  | Z0 => S754_zero false
  | Zpos p => S754_finite false p 0
  | Zneg p => S754_finite true p 0
  end.

Definition mul (x y : float) : float := SFmul prec emax x y.

(** [x / y] on floats: Python raises on a zero divisor, otherwise the
    IEEE quotient. *)
Definition is_zero (x : float) : bool :=
  match x with S754_zero _ => true | _ => false end.

Definition is_infinite (x : float) : bool :=
  match x with S754_infinity _ => true | _ => false end.

Definition truediv (x y : float) : result float :=
  if is_zero y then Raise ZeroDivisionError
  else Ok (SFdiv prec emax x y).

(** [a / b] on integers: the correctly rounded quotient of the two
    integers; [ZeroDivisionError] on [b = 0], [OverflowError] when the
    quotient is beyond the largest double. *)
Definition int_truediv (a b : Z) : result float :=
  if b =? 0 then Raise ZeroDivisionError
  else
    let q := SFdiv prec emax (of_Z a) (of_Z b) in
    if is_infinite q then Raise OverflowError else Ok q.

(** Round half to even of the rational [n / d], [d > 0]. *)
Definition round_half_even (n d : Z) : Z :=
  let q := n / d in
  let r := n mod d in
  match 2 * r ?= d with
  | Lt => q
  | Gt => q + 1
  | Eq => if Z.even q then q else q + 1
  end.

(** [round(x, ndigits)] for [ndigits >= 0]: the exact value of [x] is
    rounded half-even to [ndigits] decimals, and the decimal obtained
    is converted back to the nearest double.  Zeros, infinities and
    NaN round to themselves. *)
Definition round (x : float) (ndigits : Z) : float :=
  match x with
  | S754_finite s m e =>
      let p := 10 ^ ndigits in
      let h :=
        if 0 <=? e then Z.pos m * 2 ^ e * p
        else round_half_even (Z.pos m * p) (2 ^ (- e)) in
      match h with
      | Zpos hp => SFdiv prec emax (S754_finite s hp 0) (of_Z p)
      | _ => S754_zero s
      end
  | _ => x
  end.

End PyFloat.

(** ** Python strings and [int(str)] *)
Module PyStr.

(** Truth value of a string: only the empty string is false. *)
Definition truthy (s : string) : bool :=
  match s with
  | EmptyString => false
  | String _ _ => true
  end.

(** [a or b] on strings. *)
Definition or_else (a b : string) : string := if truthy a then a else b.

Definition lower_ascii (c : ascii) : ascii :=
  let n := nat_of_ascii c in
  if (Nat.leb 65 n && Nat.leb n 90)%bool then ascii_of_nat (n + 32) else c.

(** [s.lower()], on the ASCII letters. *)
Fixpoint lower (s : string) : string :=
  match s with
  | EmptyString => EmptyString
  | String c r => String (lower_ascii c) (lower r)
  end.

(** [s[:n]]. *)
Definition prefix (n : nat) (s : string) : string := substring 0 n s.

Definition is_space (c : ascii) : bool :=
  let n := nat_of_ascii c in
  (Nat.eqb n 32 || (Nat.leb 9 n && Nat.leb n 13))%bool.

Fixpoint lstrip (l : list ascii) : list ascii :=
  match l with
  | c :: r => if is_space c then lstrip r else l
  | [] => []
  end.

Definition strip (l : list ascii) : list ascii :=
  rev (lstrip (rev (lstrip l))).

Definition digit_of (c : ascii) : option Z :=
  let n := nat_of_ascii c in
  if (Nat.leb 48 n && Nat.leb n 57)%bool then Some (Z.of_nat (n - 48)) else None.

(** The digits of a decimal literal, left to right, [acc] being the value
    read so far and [count] the number of digits read.  An underscore is
    accepted only between two digits ([after_digit] says whether the
    previous character was one). *)
Fixpoint digits (l : list ascii) (after_digit : bool) (acc : Z) (count : nat)
  : option (Z * nat) :=
  match l with
  | [] => if after_digit then Some (acc, count) else None
  | c :: r =>
      match digit_of c with
      | Some d => digits r true (10 * acc + d) (S count)
      | None =>
          if (Ascii.eqb c "_" && after_digit)%bool
          then digits r false acc count
          else None
      end
  end.

(** The interpreter refuses literals of more than 4300 digits. *)
Definition int_max_str_digits : nat := 4300.

(** Every character of the string is an ASCII one.  A string is the
    sequence of the bytes of its UTF-8 encoding, so that a character
    beyond ASCII shows as bytes of 128 and more. *)
Fixpoint is_ascii (s : string) : bool :=
  match s with
  | EmptyString => true
  | String c r => (Nat.ltb (nat_of_ascii c) 128 && is_ascii r)%bool
  end.

(** [int(s)] in base 10 for an ASCII [s]: surrounding white space is
    dropped, one sign is allowed, and what remains has to be a decimal
    literal; [ValueError] otherwise. *)
Definition to_int (s : string) : result Z :=
  let body := strip (list_ascii_of_string s) in
  let '(neg, ds) :=
    match body with
    | c :: r =>
        if Ascii.eqb c "-" then (true, r)
        else if Ascii.eqb c "+" then (false, r)
        else (false, body)
    | [] => (false, body)
    end in
  match digits ds false 0 0 with
  | Some (v, count) =>
      if Nat.leb count int_max_str_digits
      then Ok (if neg then - v else v)
      else Raise ValueError
  | None => Raise ValueError
  end.

End PyStr.

(** ** Data model *)

(** A naive [datetime], as the number of microseconds since some fixed
    instant; [isoformat] and [fromisoformat] keep that number. *)
Definition datetime := Z.

(** [timedelta(minutes=n)], in microseconds. *)
Definition timedelta_minutes (n : Z) : Z := n * 60 * 1000000.

(** What [instaloader.Profile] exposes and [fetch_profile_data] reads.
    Attributes that may be [None] are options; [business_category_name]
    is wrapped once more, the outer [None] standing for an object without
    that attribute. *)
Record Profile : Type := {
  p_username : string;
  p_full_name : option string;
  p_followers : Z;
  p_followees : Z;
  p_mediacount : Z;
  p_profile_pic_url : string;
  p_is_verified : bool;
  p_biography : option string;
  p_external_url : option string;
  p_is_private : bool;
  p_is_business_account : bool;
  p_business_category_name : option (option string)
}.

(** The dict [fetch_profile_data] builds, key by key. *)
Record ProfileRecord : Type := {
  username : string;
  fullName : string;
  followers : Z;
  following : Z;
  posts : Z;
  profilePic : string;
  isVerified : bool;
  biography : string;
  externalUrl : string;
  isPrivate : bool;
  isBusiness : bool;
  category : option string;
  fetchedAt : datetime;
  engagementRate : PyFloat.float
}.

(** [{'username': ..., 'error': ...}]. *)
Record FetchError : Type := {
  err_username : string;
  err_error : string
}.

(** The global [cache] dict. *)
Record Cache : Type := {
  profiles : list ProfileRecord;
  last_update : option datetime;
  fetch_count : Z;
  errors : list FetchError
}.

Definition initial_cache : Cache :=
  {| profiles := []; last_update := None; fetch_count := 0; errors := [] |}.

(** The value under ['last_update'] in a parsed cache file. *)
Inductive LastUpdate : Type :=
| LU_falsy                  (* no such key, [null], or the empty string *)
| LU_unparseable            (* [datetime.fromisoformat] raises on it *)
| LU_aware (t : datetime)   (* a timestamp with a UTC offset *)
| LU_naive (t : datetime).  (* a timestamp as [datetime.now().isoformat()] writes it *)

(** A parsed cache file: a JSON object whose keys may be missing. *)
Record Snapshot : Type := {
  snap_profiles : option (list ProfileRecord);
  snap_last_update : LastUpdate;
  snap_fetch_count : option Z;
  snap_errors : option (list FetchError)
}.

(** What [json.dump(cache, f)] leaves in the file. *)
Definition snapshot_of (c : Cache) : Snapshot :=
  {| snap_profiles := Some (profiles c);
     snap_last_update :=
       match last_update c with
       | Some t => LU_naive t
       | None => LU_falsy
       end;
     snap_fetch_count := Some (fetch_count c);
     snap_errors := Some (errors c) |}.

(** The file [CACHE_FILE]. *)
Inductive CacheFile : Type :=
| NoFile
| Garbled                   (* present, but [open] or [json.load] raises *)
| Stored (d : Snapshot).

Definition CACHE_DURATION_MINUTES : Z := 30.
Definition MAX_RETRIES : nat := 3.
Definition RETRY_DELAY : Z := 5.

Definition USERNAMES : list string :=
  [ "instagram"; "cristiano"; "leomessi"; "selenagomez"; "therock";
    "kyliejenner"; "arianagrande"; "kimkardashian"; "beyonce"; "justinbieber";
    "nike"; "natgeo"; "nasa"; "redbull"; "spotify";
    "tarakeshwar_bikumandla"; "anshsaxenna" ].

(** ** The environment and the program state *)

(** How an attempt to rewrite the cache file ends. *)
Inductive WriteOutcome : Type :=
| Written                   (* the file holds the new snapshot *)
| WriteRefused              (* [open] raises: the file is untouched *)
| WriteInterrupted.         (* [json.dump] raises, the disk being full or an
                               integer too long to print: the file is left
                               truncated *)

(** The collaborators of the program.  [env_from_username k u] is what
    the k-th call of [instaloader.Profile.from_username] returns or
    raises when asked for [u]; [env_now k] is the k-th reading of
    [datetime.now()]; [env_write k] is the fate of the k-th attempt to
    write the cache file; [env_int v] is what [int(v)] reads in a string
    with characters beyond ASCII, where the interpreter goes by its own
    tables of Unicode decimal digits and white space ([None] for
    [ValueError]). *)
Record Env : Type := {
  env_from_username : nat -> string -> result Profile;
  env_now : nat -> datetime;
  env_write : nat -> WriteOutcome;
  env_int : string -> option Z
}.

(** The mutable state: the global [cache], the cache file, and how many
    times each collaborator was consulted; [slept] lists the arguments of
    [time.sleep], last first; [divisions] counts the evaluations of the
    [/] operator. *)
Record World : Type := {
  cache : Cache;
  disk : CacheFile;
  calls : nat;
  ticks : nat;
  writes : nat;
  slept : list Z;
  divisions : nat
}.

Definition with_cache (c : Cache) (w : World) : World :=
  {| cache := c; disk := disk w; calls := calls w; ticks := ticks w;
     writes := writes w; slept := slept w; divisions := divisions w |}.

(** The file after an attempt to write it, the attempt being counted. *)
Definition with_disk (f : CacheFile) (w : World) : World :=
  {| cache := cache w; disk := f; calls := calls w; ticks := ticks w;
     writes := S (writes w); slept := slept w; divisions := divisions w |}.

Definition with_call (w : World) : World :=
  {| cache := cache w; disk := disk w; calls := S (calls w); ticks := ticks w;
     writes := writes w; slept := slept w; divisions := divisions w |}.

Definition with_tick (w : World) : World :=
  {| cache := cache w; disk := disk w; calls := calls w; ticks := S (ticks w);
     writes := writes w; slept := slept w; divisions := divisions w |}.

Definition with_sleep (s : Z) (w : World) : World :=
  {| cache := cache w; disk := disk w; calls := calls w; ticks := ticks w;
     writes := writes w; slept := s :: slept w; divisions := divisions w |}.

Definition with_division (w : World) : World :=
  {| cache := cache w; disk := disk w; calls := calls w; ticks := ticks w;
     writes := writes w; slept := slept w; divisions := S (divisions w) |}.

(** ** The monad *)

Definition M (A : Type) : Type := World -> result A * World.

Definition ret {A} (a : A) : M A := fun w => (Ok a, w).

Definition raise {A} (e : exn) : M A := fun w => (Raise e, w).

Definition bind {A B} (m : M A) (k : A -> M B) : M B :=
  fun w =>
    match m w with
    | (Ok a, w') => k a w'
    | (Raise e, w') => (Raise e, w')
    end.

Definition lift {A} (r : result A) : M A := fun w => (r, w).

(** [try: body / except Exception as e: handler(e)].  What the body did
    to the state before raising stays done. *)
Definition try_except {A} (body : M A) (handler : exn -> M A) : M A :=
  fun w =>
    match body w with
    | (Ok a, w') => (Ok a, w')
    | (Raise e, w') => handler e w'
    end.

Declare Scope py_scope.
Delimit Scope py_scope with py.
Notation "x <- m ;; k" := (bind m (fun x => k))
  (at level 61, m at next level, right associativity) : py_scope.
Notation "m ;; k" := (bind m (fun _ => k))
  (at level 61, right associativity) : py_scope.
Local Open Scope py_scope.

(** ** Primitive effects *)
Section Program.

Variable env : Env.

(** [instaloader.Profile.from_username(L.context, username)]. *)
Definition Profile_from_username (u : string) : M Profile :=
  fun w => (env_from_username env (calls w) u, with_call w).

(** [datetime.now()]. *)
Definition datetime_now : M datetime :=
  fun w => (Ok (env_now env (ticks w)), with_tick w).

(** [time.sleep(s)]. *)
Definition time_sleep (s : Z) : M unit :=
  fun w => (Ok tt, with_sleep s w).

Definition read_cache : M Cache := fun w => (Ok (cache w), w).

Definition write_cache (c : Cache) : M unit := fun w => (Ok tt, with_cache c w).

(** [os.path.exists(CACHE_FILE)]. *)
Definition path_exists : M bool :=
  fun w => (Ok (match disk w with NoFile => false | _ => true end), w).

(** [with open(CACHE_FILE, 'r') as f: data = json.load(f)]. *)
Definition json_load_file : M Snapshot :=
  fun w =>
    match disk w with
    | Stored d => (Ok d, w)
    | Garbled => (Raise ValueError, w)
    | NoFile => (Raise OSError, w)
    end.

(** [with open(CACHE_FILE, 'w') as f: json.dump(data, f, indent=2)]. *)
Definition json_dump_file (d : Snapshot) : M unit :=
  fun w =>
    match env_write env (writes w) with
    | Written => (Ok tt, with_disk (Stored d) w)
    | WriteRefused => (Raise OSError, with_disk (disk w) w)
    | WriteInterrupted => (Raise OSError, with_disk Garbled w)
    end.

(** [a / b] on two integers, and [x / y] on two floats. *)
Definition int_div (a b : Z) : M PyFloat.float :=
  fun w => (PyFloat.int_truediv a b, with_division w).

Definition float_div (x y : PyFloat.float) : M PyFloat.float :=
  fun w => (PyFloat.truediv x y, with_division w).

(** ** [calculate_engagement_rate] *)

(** The body of the [try]. *)
Definition engagement_rate_body (profile : Profile) : M PyFloat.float :=
  if p_followers profile =? 0 then ret PyFloat.pos_zero
  else
    ratio <- int_div (p_followees profile) (p_followers profile) ;;
    let engagement := PyFloat.mul ratio (PyFloat.of_Z 100) in
    ret (PyFloat.round engagement 2).

(** The bare [except:] turns whatever the body raises into [0.0]. *)
Definition calculate_engagement_rate (profile : Profile) : M PyFloat.float :=
  try_except (engagement_rate_body profile) (fun _ => ret PyFloat.pos_zero).

(** ** [fetch_profile_data] *)

(** The decorator: two seconds of sleep before every call. *)
Definition rate_limit {A} (call : M A) : M A :=
  time_sleep 2 ;; call.

Definition build_record (profile : Profile) (now : datetime)
           (rate : PyFloat.float) : ProfileRecord :=
  {| username := p_username profile;
     fullName :=
       match p_full_name profile with
       | Some n => PyStr.or_else n (p_username profile)
       | None => p_username profile
       end;
     followers := p_followers profile;
     following := p_followees profile;
     posts := p_mediacount profile;
     profilePic := p_profile_pic_url profile;
     isVerified := p_is_verified profile;
     biography :=
       match p_biography profile with
       | Some b => if PyStr.truthy b then PyStr.prefix 100 b else ""
       | None => ""
       end;
     externalUrl :=
       match p_external_url profile with
       | Some u => PyStr.or_else u ""
       | None => ""
       end;
     isPrivate := p_is_private profile;
     isBusiness := p_is_business_account profile;
     category :=
       match p_business_category_name profile with
       | Some c => c
       | None => Some ""
       end;
     fetchedAt := now;
     engagementRate := rate |}.

Definition not_exist_error (u : string) : string :=
  "Profile '" ++ u ++ "' does not exist".

Definition connection_error (u : string) : string :=
  "Connection error for '" ++ u ++ "'".

Definition other_error (u : string) (e : exn) : string :=
  "Error fetching '" ++ u ++ "': " ++ exn_str e.

(** What one call returns: [(data, None)] or [(None, error)]. *)
Definition FetchResult : Type := option ProfileRecord * option string.

(** The [try] block of [fetch_profile_data]. *)
Definition fetch_attempt (u : string) : M FetchResult :=
  profile <- Profile_from_username u ;;
  now <- datetime_now ;;
  rate <- calculate_engagement_rate profile ;;
  ret (Some (build_record profile now rate), None).

(** The decorated function.  The retry calls it again by its name, hence
    through the decorator; [retry_count] only grows, up to
    [MAX_RETRIES - 1]. *)
Equations? fetch_profile_data (u : string) (retry_count : nat) (w : World)
  : result FetchResult * World
  by wf (MAX_RETRIES - retry_count)%nat lt :=
fetch_profile_data u retry_count w :=
  rate_limit
    (try_except (fetch_attempt u)
       (fun e =>
          match e with
          | ProfileNotExistsException _ =>
              ret (None, Some (not_exist_error u))
          | ConnectionException _ =>
              match lt_dec retry_count (MAX_RETRIES - 1) with
              | left _ =>
                  time_sleep RETRY_DELAY ;;
                  (fun w' => fetch_profile_data u (retry_count + 1) w')
              | right _ => ret (None, Some (connection_error u))
              end
          | _ => ret (None, Some (other_error u e))
          end)) w.
Proof. destruct retry_count as [|[|n]]; simpl in *; lia. Qed.

(** ** The cache file: [save_cache] and [load_cache] *)

Definition save_cache (data : Cache) : M unit :=
  try_except (json_dump_file (snapshot_of data)) (fun _ => ret tt).

(** [datetime.fromisoformat(data['last_update'])]. *)
Definition fromisoformat (v : LastUpdate) : result LastUpdate :=
  match v with
  | LU_falsy => Raise TypeError
  | LU_unparseable => Raise ValueError
  | LU_aware t => Ok (LU_aware t)
  | LU_naive t => Ok (LU_naive t)
  end.

(** [datetime.now() - last_update]: a naive and an aware timestamp
    cannot be subtracted. *)
Definition age_of (now : datetime) (parsed : LastUpdate) : result Z :=
  match parsed with
  | LU_naive t => Ok (now - t)
  | _ => Raise TypeError
  end.

(** [len(data['profiles'])], evaluated for the log line. *)
Definition len_profiles (data : Snapshot) : result nat :=
  match snap_profiles data with
  | Some ps => Ok (List.length ps)
  | None => Raise KeyError
  end.

Definition lu_truthy (v : LastUpdate) : bool :=
  match v with LU_falsy => false | _ => true end.

(** The [try] block of [load_cache]; falling out of it is [None]. *)
Definition load_cache_body : M (option Snapshot) :=
  present <- path_exists ;;
  if present then
    data <- json_load_file ;;
    if lu_truthy (snap_last_update data) then
      parsed <- lift (fromisoformat (snap_last_update data)) ;;
      now <- datetime_now ;;
      age <- lift (age_of now parsed) ;;
      if age <? timedelta_minutes CACHE_DURATION_MINUTES then
        _ <- lift (len_profiles data) ;;
        ret (Some data)
      else ret None
    else ret None
  else ret None.

Definition load_cache : M (option Snapshot) :=
  try_except load_cache_body (fun _ => ret None).

(** ** [update_cache_data] *)

(** Python's [list.sort(key=lambda x: x['followers'], reverse=True)] is a
    stable sort; an insertion sort from the right is one too.  A record
    goes in front of the first one that has no more followers. *)
Fixpoint insert_desc (x : ProfileRecord) (l : list ProfileRecord)
  : list ProfileRecord :=
  match l with
  | [] => [x]
  | y :: r =>
      if followers x <? followers y then y :: insert_desc x r
      else x :: l
  end.

Definition sort_by_followers_desc (l : list ProfileRecord) : list ProfileRecord :=
  fold_right insert_desc [] l.

(** One turn of the [for] loop, after the fetch: a record is a dict of
    fourteen keys, hence true; the error is tested as a string. *)
Definition collect (u : string) (r : FetchResult)
           (acc : list ProfileRecord * list FetchError)
  : list ProfileRecord * list FetchError :=
  let '(profile_data, error) := r in
  let '(ps, es) := acc in
  match profile_data with
  | Some d => (ps ++ [d], es)
  | None =>
      match error with
      | Some e =>
          if PyStr.truthy e
          then (ps, es ++ [{| err_username := u; err_error := e |}])
          else (ps, es)
      | None => (ps, es)
      end
  end.

Fixpoint fetch_all (usernames : list string)
         (acc : list ProfileRecord * list FetchError)
  : M (list ProfileRecord * list FetchError) :=
  match usernames with
  | [] => ret acc
  | u :: rest =>
      r <- fetch_profile_data u 0 ;;
      fetch_all rest (collect u r acc)
  end.

Definition set_profiles (ps : list ProfileRecord) (c : Cache) : Cache :=
  {| profiles := ps; last_update := last_update c;
     fetch_count := fetch_count c; errors := errors c |}.

Definition set_last_update (t : option datetime) (c : Cache) : Cache :=
  {| profiles := profiles c; last_update := t;
     fetch_count := fetch_count c; errors := errors c |}.

Definition set_fetch_count (n : Z) (c : Cache) : Cache :=
  {| profiles := profiles c; last_update := last_update c;
     fetch_count := n; errors := errors c |}.

Definition set_errors (es : list FetchError) (c : Cache) : Cache :=
  {| profiles := profiles c; last_update := last_update c;
     fetch_count := fetch_count c; errors := es |}.

Definition modify_cache (f : Cache -> Cache) : M unit :=
  c <- read_cache ;; write_cache (f c).

(** [update_cache_data], over any list of usernames. *)
Definition update_cache_data_over (usernames : list string)
  : M (list ProfileRecord * list FetchError) :=
  fetched <- fetch_all usernames ([], []) ;;
  let profiles := sort_by_followers_desc (fst fetched) in
  let errors := snd fetched in
  modify_cache (set_profiles profiles) ;;
  now <- datetime_now ;;
  modify_cache (set_last_update (Some now)) ;;
  modify_cache (fun c => set_fetch_count (fetch_count c + 1) c) ;;
  modify_cache (set_errors errors) ;;
  c <- read_cache ;;
  save_cache c ;;
  ret (profiles, errors).

Definition update_cache_data : M (list ProfileRecord * list FetchError) :=
  update_cache_data_over USERNAMES.

(** ** [get_cache_age_minutes] *)

(** [timedelta.total_seconds()].  The difference of two datetimes is
    below 2^59 microseconds, so the quotient is always a double. *)
Definition total_seconds (age : Z) : PyFloat.float :=
  SFdiv PyFloat.prec PyFloat.emax (PyFloat.of_Z age) (PyFloat.of_Z 1000000).

Definition get_cache_age_minutes : M (option PyFloat.float) :=
  c <- read_cache ;;
  match last_update c with
  | None => ret None
  | Some t =>
      now <- datetime_now ;;
      minutes <- float_div (total_seconds (now - t)) (PyFloat.of_Z 60) ;;
      ret (Some (PyFloat.round minutes 1))
  end.

(** ** Start of the process *)

(** [cache.update(cached_data)]: the keys of the file replace those of
    the dict.  Only snapshots [load_cache] returned get here, and their
    timestamp is a naive one. *)
Definition cache_update (d : Snapshot) (c : Cache) : Cache :=
  {| profiles := match snap_profiles d with Some ps => ps | None => profiles c end;
     last_update :=
       match snap_last_update d with
       | LU_naive t => Some t
       | _ => last_update c
       end;
     fetch_count := match snap_fetch_count d with Some n => n | None => fetch_count c end;
     errors := match snap_errors d with Some es => es | None => errors c end |}.

(** The [__main__] block, up to [app.run]. *)
Definition main : M unit :=
  cached_data <- load_cache ;;
  match cached_data with
  | Some d =>
      modify_cache (cache_update d) ;;
      _ <- get_cache_age_minutes ;;
      ret tt
  | None =>
      _ <- update_cache_data ;;
      ret tt
  end.

(** ** The HTTP API *)

(** The five routes.  The query parameters of [/api/profiles] are kept
    as the client wrote them; [None] is a parameter left out. *)
Inductive Request : Type :=
| GET_index
| GET_health
| GET_profiles (verified min_followers : option string)
| POST_refresh
| GET_stats.

Record Stats : Type := {
  total_profiles : nat;
  verified_profiles : nat;
  total_followers : Z;
  total_following : Z;
  total_posts : Z;
  avg_followers : PyFloat.float;
  avg_posts : PyFloat.float;
  top_5_profiles : list (string * Z)
}.

(** The JSON bodies, one constructor per [jsonify] call, and the page
    Flask answers when a view raises. *)
Inductive Body : Type :=
| IndexBody (profiles_cached : nat) (updated : option datetime) (total_fetches : Z)
| HealthBody (profiles_cached : nat) (updated : option datetime)
             (cache_age_minutes : option PyFloat.float) (errors_count : nat)
| ProfilesBody (success : bool) (data : list ProfileRecord)
               (updated : option datetime) (total : nat)
               (cache_age_minutes : option PyFloat.float)
               (errs : list FetchError)
| RefreshBody (success : bool) (data : list ProfileRecord)
              (updated : option datetime) (errs : list FetchError)
              (successful failed total_requested : nat)
| NoStatsBody (success : bool) (message : string)
| StatsBody (success : bool) (stats : Stats) (updated : option datetime)
| InternalServerError.

Record Response : Type := {
  status : Z;
  body : Body
}.

(** The ['success'] key of a body, when it has one. *)
Definition success_of (b : Body) : option bool :=
  match b with
  | ProfilesBody s _ _ _ _ _ => Some s
  | RefreshBody s _ _ _ _ _ _ => Some s
  | NoStatsBody s _ => Some s
  | StatsBody s _ _ => Some s
  | _ => None
  end.

(** The ['errors'] key of a body, when it has one. *)
Definition errors_of (b : Body) : option (list FetchError) :=
  match b with
  | ProfilesBody _ _ _ _ _ es => Some es
  | RefreshBody _ _ _ es _ _ _ => Some es
  | _ => None
  end.

(** The ['data'] key of a body, when it has one. *)
Definition data_of (b : Body) : option (list ProfileRecord) :=
  match b with
  | ProfilesBody _ d _ _ _ _ => Some d
  | RefreshBody _ d _ _ _ _ _ => Some d
  | _ => None
  end.

(** An [int] goes to decimal digits only if it has at most 4300 of
    them. *)
Definition printable (n : Z) : bool := Z.abs n <? 10 ^ 4300.

(** [jsonify(...)]: the body goes out as it is, unless an integer of it
    cannot be printed, which raises [ValueError].  The integers of the
    records were read from JSON, by the source or from the cache file, and
    JSON reads no integer it would not print; the counts of profiles and
    errors are lengths.  The integers the program computes itself are the
    run counter, which a refresh increments, and the totals of the
    statistics, which are sums: they can have more digits than anything
    that was read. *)
Definition jsonify (b : Body) : M Body :=
  match b with
  | IndexBody _ _ total_fetches =>
      if printable total_fetches then ret b else raise ValueError
  | StatsBody _ st _ =>
      if (printable (total_followers st)
          && printable (total_following st)
          && printable (total_posts st))%bool
      then ret b
      else raise ValueError
  | _ => ret b
  end.

Definition index : M Body :=
  c <- read_cache ;;
  jsonify (IndexBody (List.length (profiles c)) (last_update c) (fetch_count c)).

Definition health_check : M Body :=
  c <- read_cache ;;
  age <- get_cache_age_minutes ;;
  jsonify (HealthBody (List.length (profiles c)) (last_update c) age
                  (List.length (errors c))).

(** [request.args.get('verified', '').lower() == 'true']. *)
Definition verified_flag (verified : option string) : bool :=
  String.eqb
    (PyStr.lower (match verified with Some v => v | None => "" end))
    "true".

(** [int(v)] for a string [v]: the decimal literal reader on an ASCII
    string, the interpreter's Unicode reading otherwise. *)
Definition py_int (v : string) : result Z :=
  if PyStr.is_ascii v then PyStr.to_int v
  else
    match env_int env v with
    | Some n => Ok n
    | None => Raise ValueError
    end.

(** [int(request.args.get('min_followers', 0))]. *)
Definition min_followers_arg (min_followers : option string) : result Z :=
  match min_followers with
  | Some v => py_int v
  | None => Ok 0
  end.

Definition get_profiles (verified min_followers : option string) : M Body :=
  let verified_only := verified_flag verified in
  min_followers <- lift (min_followers_arg min_followers) ;;
  c <- read_cache ;;
  let profiles := profiles c in
  let profiles :=
    if verified_only then filter isVerified profiles else profiles in
  let profiles :=
    if 0 <? min_followers
    then filter (fun p => min_followers <=? followers p) profiles
    else profiles in
  age <- get_cache_age_minutes ;;
  jsonify (ProfilesBody true profiles (last_update c) (List.length profiles)
                    age (errors c)).

Definition refresh_profiles : M Body :=
  r <- update_cache_data ;;
  let '(profiles, errors) := r in
  c <- read_cache ;;
  jsonify (RefreshBody true profiles (last_update c) errors
                   (List.length profiles) (List.length errors)
                   (List.length USERNAMES)).

Definition sum_Z (l : list Z) : Z := fold_left Z.add l 0.

(** What [get_stats] computes once the cache is known not to be empty. *)
Definition compute_stats (profiles : list ProfileRecord) : M Stats :=
  let total_followers := sum_Z (map followers profiles) in
  let total_following := sum_Z (map following profiles) in
  let total_posts := sum_Z (map posts profiles) in
  let verified_count := List.length (filter isVerified profiles) in
  avg_followers <- int_div total_followers (Z.of_nat (List.length profiles)) ;;
  avg_posts <- int_div total_posts (Z.of_nat (List.length profiles)) ;;
  let top_5 := firstn 5 (sort_by_followers_desc profiles) in
  ret {| total_profiles := List.length profiles;
         verified_profiles := verified_count;
         total_followers := total_followers;
         total_following := total_following;
         total_posts := total_posts;
         avg_followers := PyFloat.round avg_followers 2;
         avg_posts := PyFloat.round avg_posts 2;
         top_5_profiles := map (fun p => (username p, followers p)) top_5 |}.

Definition get_stats : M Body :=
  c <- read_cache ;;
  let profiles := profiles c in
  match profiles with
  | [] => jsonify (NoStatsBody false "No data available")
  | _ :: _ =>
      stats <- compute_stats profiles ;;
      jsonify (StatsBody true stats (last_update c))
  end.

Definition view (r : Request) : M Body :=
  match r with
  | GET_index => index
  | GET_health => health_check
  | GET_profiles verified min_followers => get_profiles verified min_followers
  | POST_refresh => refresh_profiles
  | GET_stats => get_stats
  end.

(** Flask around a view: a body returned goes out with status 200, an
    exception that escapes the view, be it from [int] or from [jsonify],
    becomes a 500 page. *)
Definition serve (r : Request) (w : World) : Response * World :=
  match view r w with
  | (Ok b, w') => ({| status := 200; body := b |}, w')
  | (Raise _, w') => ({| status := 500; body := InternalServerError |}, w')
  end.

End Program.

(** ** The end of the [__main__] block *)
Section Startup.

Variable env : Env.



End Startup.

(** * Vocabulary of the statements *)
Section Vocabulary.

Variable env : Env.

(** The value [calculate_engagement_rate] returns, as a function of the
    profile alone. *)
Definition engagement_value (p : Profile) : PyFloat.float :=
  if p_followers p =? 0 then PyFloat.pos_zero
  else
    match PyFloat.int_truediv (p_followees p) (p_followers p) with
    | Ok ratio => PyFloat.round (PyFloat.mul ratio (PyFloat.of_Z 100)) 2
    | Raise _ => PyFloat.pos_zero
    end.

Definition engagement_world (p : Profile) (w : World) : World :=
  if p_followers p =? 0 then w else with_division w.

(** The state after a successful attempt made in [w]. *)
Definition after_success (p : Profile) (w : World) : World :=
  engagement_world p (with_tick (with_call w)).

(** The state in which an attempt starts: the decorator has slept. *)
Definition attempt_world (w : World) : World := with_sleep 2 w.

(** The state after an attempt that raised. *)
Definition after_failure (w : World) : World := with_call (attempt_world w).

(** What the oracle answers to the attempt made from [w]. *)
Definition outcome (u : string) (w : World) : result Profile :=
  env_from_username env (calls w) u.

(** The exceptions of the last [except Exception] clause. *)
Definition terminal (e : exn) : bool :=
  match e with
  | ProfileNotExistsException _ | ConnectionException _ => false
  | _ => true
  end.

(** A fetch result with exactly one side filled, the error (when it is
    the error) being a string Python takes as true. *)
Definition exactly_one (r : FetchResult) : Prop :=
  match r with
  | (Some _, None) => True
  | (None, Some e) => PyStr.truthy e = true
  | _ => False
  end.

(** What a refresh run gets for one username. *)
Inductive Outcome : Type :=
| Got (r : ProfileRecord)
| Failed (e : FetchError).

Fixpoint gots (l : list Outcome) : list ProfileRecord :=
  match l with
  | [] => []
  | Got r :: t => r :: gots t
  | Failed _ :: t => gots t
  end.

Fixpoint fails (l : list Outcome) : list FetchError :=
  match l with
  | [] => []
  | Got _ :: t => fails t
  | Failed e :: t => e :: fails t
  end.

(** The outcome [o] is the one of username [u]: an error names it. *)
Definition outcome_for (u : string) (o : Outcome) : Prop :=
  match o with
  | Got _ => True
  | Failed e => err_username e = u
  end.

(** [fetch_profile_data] leaves the cache and the cache file alone. *)
Definition same_store (w w' : World) : Prop :=
  cache w' = cache w /\ disk w' = disk w /\ writes w' = writes w.

(** What an attempt to save leaves in the cache file. *)
Definition saved_disk (c : Cache) (w : World) : CacheFile :=
  match env_write env (writes w) with
  | Written => Stored (snapshot_of c)
  | WriteRefused => disk w
  | WriteInterrupted => Garbled
  end.

(** The cache a refresh run installs, from what the loop fetched, the
    time read after the loop and the cache before the run. *)
Definition refreshed (fetched : list ProfileRecord * list FetchError)
           (now : datetime) (c : Cache) : Cache :=
  {| profiles := sort_by_followers_desc (fst fetched);
     last_update := Some now;
     fetch_count := fetch_count c + 1;
     errors := snd fetched |}.

(** The state a refresh run ends in, [w1] being the state after the loop. *)
Definition after_refresh (fetched : list ProfileRecord * list FetchError)
           (w1 : World) : World :=
  let c := refreshed fetched (env_now env (ticks w1)) (cache w1) in
  let w2 := with_cache c (with_tick w1) in
  with_disk (saved_disk c w2) w2.

(** Follower counts never go up along the list. *)
Definition sorted_desc (l : list ProfileRecord) : Prop :=
  StronglySorted (fun a b => followers b <= followers a) l.

(** The records of [l] that have [k] followers, in the order of [l]. *)
Definition with_followers (k : Z) (l : list ProfileRecord) : list ProfileRecord :=
  filter (fun r => followers r =? k) l.

(** The same collaborators, except for the fate of the writes. *)
Definition with_write (f : nat -> WriteOutcome) (e : Env) : Env :=
  {| env_from_username := env_from_username e;
     env_now := env_now e;
     env_write := f;
     env_int := env_int e |}.

(** What [load_cache] returns from the state [w]. *)
Definition load_result (w : World) : option Snapshot :=
  match disk w with
  | Stored d =>
      match snap_last_update d with
      | LU_naive t =>
          if env_now env (ticks w) - t <? timedelta_minutes CACHE_DURATION_MINUTES
          then match snap_profiles d with Some _ => Some d | None => None end
          else None
      | _ => None
      end
  | _ => None
  end.

(** The state [load_cache] leaves: the clock is read once the timestamp
    of the file has been parsed. *)
Definition load_world (w : World) : World :=
  match disk w with
  | Stored d =>
      match snap_last_update d with
      | LU_naive _ | LU_aware _ => with_tick w
      | _ => w
      end
  | _ => w
  end.

(** What [get_cache_age_minutes] returns from the state [w], and the
    state it leaves. *)
Definition age_value (w : World) : option PyFloat.float :=
  match last_update (cache w) with
  | None => None
  | Some t =>
      Some (PyFloat.round
              (SFdiv PyFloat.prec PyFloat.emax
                     (total_seconds (env_now env (ticks w) - t))
                     (PyFloat.of_Z 60))
              1)
  end.

Definition age_world (w : World) : World :=
  match last_update (cache w) with
  | None => w
  | Some _ => with_division (with_tick w)
  end.

(** The two filters of [get_profiles]. *)
Definition select (verified_only : bool) (min_followers : Z)
           (l : list ProfileRecord) : list ProfileRecord :=
  let l := if verified_only then filter isVerified l else l in
  if 0 <? min_followers
  then filter (fun p => min_followers <=? followers p) l
  else l.

(** The quotient of two integers is within the range of the doubles. *)
Definition quotient_fits (a b : Z) : bool :=
  negb (PyFloat.is_infinite
          (SFdiv PyFloat.prec PyFloat.emax (PyFloat.of_Z a) (PyFloat.of_Z b))).

(** The two averages of [get_stats] are within the range of the doubles. *)
Definition averages_fit (l : list ProfileRecord) : Prop :=
  quotient_fits (sum_Z (map followers l)) (Z.of_nat (List.length l)) = true
  /\ quotient_fits (sum_Z (map posts l)) (Z.of_nat (List.length l)) = true.

(** A request whose [min_followers] parameter, when given, reads as an
    integer. *)
Definition well_formed (r : Request) : Prop :=
  match r with
  | GET_profiles _ m => exists n, min_followers_arg env m = Ok n
  | _ => True
  end.

(** The answer to [r] in state [w] is a success: status 200, and a body
    that says [success: false] exactly when [r] asks for the statistics of
    an empty cache. *)
Definition answers_success (r : Request) (w : World) : Prop :=
  let resp := fst (serve env r w) in
  status resp = 200
  /\ (success_of (body resp) = Some false
      <-> r = GET_stats /\ profiles (cache w) = []).

(** ** The life of the program *)

(** The process starts (the [cache] dict is the initial one and the
    [__main__] block runs), or serves a request. *)
Inductive Event : Type :=
| Boot
| Call (r : Request).

Definition step (ev : Event) (w : World) : World :=
  match ev with
  | Boot => snd (main env (with_cache initial_cache w))
  | Call r => snd (serve env r w)
  end.

(** The states the program goes through on a machine where it starts
    without a cache file. *)
Inductive reachable : World -> Prop :=
| reach_fresh (w : World) :
    cache w = initial_cache -> disk w = NoFile -> reachable w
| reach_step (ev : Event) (w : World) :
    reachable w -> reachable (step ev w).

(** The records of the cache, and those of the cache file, are sorted. *)
Definition store_sorted (w : World) : Prop :=
  sorted_desc (profiles (cache w))
  /\ forall d ps, disk w = Stored d -> snap_profiles d = Some ps -> sorted_desc ps.

(** The ratio as the specification words it: following divided by
    followers, times 100, rounded to 2 decimals, in Python's arithmetic. *)
Definition ratio_formula (nfollowing nfollowers : Z) : result PyFloat.float :=
  result_bind (PyFloat.int_truediv nfollowing nfollowers)
    (fun ratio => Ok (PyFloat.round (PyFloat.mul ratio (PyFloat.of_Z 100)) 2)).

(** The follower and post counts of the records are below 2^1000. *)
Definition counts_fit (l : list ProfileRecord) : Prop :=
  Forall (fun p => Z.abs (followers p) < 2 ^ 1000 /\ Z.abs (posts p) < 2 ^ 1000) l.

(** The same for the pairs of username and followers of [get_stats]. *)
Definition pairs_sorted_desc (l : list (string * Z)) : Prop :=
  StronglySorted (fun a b => snd b <= snd a) l.

(** The arguments of [time.sleep] during a call that makes [k] attempts,
    last first. *)
Fixpoint attempt_sleeps (k : nat) : list Z :=
  match k with
  | O => []
  | S O => [2]
  | S j => 2 :: RETRY_DELAY :: attempt_sleeps j
  end.




(** The characters a decimal literal with white space around it is made
    of. *)
Definition int_char (c : ascii) : bool :=
  match PyStr.digit_of c with
  | Some _ => true
  | None =>
      Ascii.eqb c "_" || Ascii.eqb c "+" || Ascii.eqb c "-" || PyStr.is_space c
  end.

(** A cache some refresh run over [USERNAMES] has filled. *)
Definition populated (c : Cache) : Prop :=
  (List.length (profiles c) + List.length (errors c) = List.length USERNAMES)%nat
  /\ last_update c <> None
  /\ 1 <= fetch_count c.

(** The seconds slept so far. *)
Definition seconds_slept (w : World) : Z := fold_right Z.add 0 (slept w).


(** Nothing but the clock and the division counter moved from [w] to
    [w']. *)
Definition untouched (w w' : World) : Prop :=
  cache w' = cache w /\ disk w' = disk w /\ calls w' = calls w
  /\ writes w' = writes w /\ slept w' = slept w.

(** A username with its followers, as the statistics list it. *)
Definition headline (p : ProfileRecord) : string * Z := (username p, followers p).

(** The source fails whatever it is asked, whenever it is asked. *)
Definition source_down : Prop :=
  forall k u, exists e, env_from_username env k u = Raise e.

(** The source answers whatever it is asked, whenever it is asked. *)
Definition source_up : Prop :=
  forall k u, exists p, env_from_username env k u = Ok p.

(** The follower, following and post counts of the records are below
    2^1000, and so is the number of the records: the averages are within
    the range of the doubles and the totals can be printed. *)
Definition stats_fit (l : list ProfileRecord) : Prop :=
  Forall (fun p => Z.abs (followers p) < 2 ^ 1000
                   /\ Z.abs (following p) < 2 ^ 1000
                   /\ Z.abs (posts p) < 2 ^ 1000) l
  /\ Z.of_nat (List.length l) < 2 ^ 1000.

(** What the answer to [r] computes can be printed: the run counter for
    [GET /], the averages and totals for [GET /api/stats]. *)
Definition answer_fits (r : Request) (w : World) : Prop :=
  match r with
  | GET_index => printable (fetch_count (cache w)) = true
  | GET_stats => stats_fit (profiles (cache w))
  | _ => True
  end.

End Vocabulary.

(** * Sample collaborators and states *)
Module Sample.

Definition profile_of (name : string) (nfollowers nfollowees : Z)
           (verified : bool) : Profile :=
  {| p_username := name;
     p_full_name := Some "";
     p_followers := nfollowers;
     p_followees := nfollowees;
     p_mediacount := 10;
     p_profile_pic_url := "https://example.org/" ++ name ++ ".jpg";
     p_is_verified := verified;
     p_biography := None;
     p_external_url := None;
     p_is_private := false;
     p_is_business_account := false;
     p_business_category_name := None |}.

Definition nasa : Profile := profile_of "nasa" 97000000 90 true.
Definition nike : Profile := profile_of "nike" 300000000 150 true.
Definition newcomer : Profile := profile_of "newcomer" 0 12 false.

(** The Arabic-Indic digit three, in UTF-8. *)
Definition arabic_three : string :=
  String (ascii_of_nat 217) (String (ascii_of_nat 163) EmptyString).

(** An interpreter that reads that digit. *)
Definition unicode_int (v : string) : option Z :=
  if String.eqb v arabic_three then Some 3 else None.

(** Midnight of some day, in microseconds. *)
Definition midnight : datetime := 1700000000000000.

Definition clock (k : nat) : datetime := midnight + Z.of_nat k * 1000000.

(** The source answers the first call, does not know the second profile,
    then fails twice to connect before it answers again. *)
Definition flaky_source (k : nat) (u : string) : result Profile :=
  match k with
  | 0%nat => Ok nasa
  | 1%nat => Raise (ProfileNotExistsException "missing")
  | 2%nat | 3%nat => Raise (ConnectionException "reset by peer")
  | _ => Ok nike
  end.

Definition flaky : Env :=
  {| env_from_username := flaky_source;
     env_now := clock;
     env_write := fun _ => Written;
     env_int := unicode_int |}.

(** The source cannot be reached at all, and the disk is full. *)
Definition unreachable : Env :=
  {| env_from_username := fun _ _ => Raise (ConnectionException "timed out");
     env_now := clock;
     env_write := fun _ => WriteRefused;
     env_int := unicode_int |}.

(** A machine on which the program starts for the first time. *)
Definition fresh_world : World :=
  {| cache := initial_cache; disk := NoFile; calls := 0; ticks := 0;
     writes := 0; slept := []; divisions := 0 |}.

Definition record_of (p : Profile) : ProfileRecord :=
  build_record p midnight (engagement_value p).

Definition full_cache (t : datetime) : Cache :=
  {| profiles := [record_of nike; record_of nasa; record_of newcomer];
     last_update := Some t;
     fetch_count := 1;
     errors := [] |}.

(** A state whose cache file was saved [age] microseconds before the
    next reading of the clock. *)
Definition restart_world (age : Z) : World :=
  {| cache := initial_cache;
     disk := Stored (snapshot_of (full_cache (midnight - age)));
     calls := 0; ticks := 0; writes := 0; slept := []; divisions := 0 |}.

(** A running server with three profiles in its cache. *)
Definition serving_world : World :=
  {| cache := full_cache midnight;
     disk := Stored (snapshot_of (full_cache midnight));
     calls := 3; ticks := 4; writes := 1; slept := [2; 2; 2]; divisions := 2 |}.

(** A profile that follows 5 * 10^4299 accounts: a count of 4300
    digits, the longest JSON reads. *)
Definition follower : Profile := profile_of "follower" 1000 (5 * 10 ^ 4299) false.

(** A running server with two such profiles in its cache. *)
Definition crowded_world : World :=
  {| cache := {| profiles := [record_of follower; record_of follower];
                 last_update := Some midnight;
                 fetch_count := 1;
                 errors := [] |};
     disk := NoFile;
     calls := 2; ticks := 3; writes := 1; slept := [2; 2]; divisions := 2 |}.

(** A running server whose run counter has reached 10^4300. *)
Definition worn_world : World :=
  {| cache := {| profiles := [record_of nike; record_of nasa; record_of newcomer];
                 last_update := Some midnight;
                 fetch_count := 10 ^ 4300;
                 errors := [] |};
     disk := NoFile;
     calls := 3; ticks := 4; writes := 1; slept := [2; 2; 2]; divisions := 2 |}.

(** The state after a first start of the process. *)
Definition booted : World := step flaky Boot fresh_world.

(** The source knows every username. *)
Definition healthy : Env :=
  {| env_from_username := fun _ u => Ok (profile_of u 1000 10 false);
     env_now := clock;
     env_write := fun _ => Written;
     env_int := unicode_int |}.

End Sample.

(** * Properties *)

(** ** Floats: integer quotients that stay finite *)
Section FloatFacts.

Lemma digits2_pos_size (p : positive) : digits2_pos p = Pos.size p.
Proof. induction p; simpl; congruence. Qed.

Lemma Zdigits2_le (m k : Z) : 0 <= m < 2 ^ k -> 0 <= k -> Zdigits2 m <= k.
Proof.
  intros [L U] K. destruct m as [|p|p]; simpl; try lia.
  rewrite digits2_pos_size.
  pose proof (Pos.size_le p) as S.
  destruct (Z_lt_le_dec k (Z.pos (Pos.size p))) as [C|C]; [|exact C].
  exfalso.
  assert (2 ^ (k + 1) <= 2 ^ Z.pos (Pos.size p)) by (apply Z.pow_le_mono_r; lia).
  assert (Z.pos (2 ^ Pos.size p) <= Z.pos p~0) by exact S.
  rewrite Pos2Z.inj_pow in H0. rewrite Z.pow_add_r in H by lia. lia.
Qed.

Lemma shr_1_bound (mrs : shr_record) :
  0 <= shr_m mrs -> 0 <= shr_m (shr_1 mrs) /\ 2 * shr_m (shr_1 mrs) <= shr_m mrs.
Proof.
  destruct mrs as [m r s]. simpl. destruct m as [|[p|p|]|p]; simpl; lia.
Qed.

Lemma iter_shr_1_bound (p : positive) :
  forall mrs, 0 <= shr_m mrs ->
    0 <= shr_m (iter_pos shr_1 p mrs)
    /\ 2 ^ Z.pos p * shr_m (iter_pos shr_1 p mrs) <= shr_m mrs.
Proof.
  induction p as [p IH|p IH|]; intros mrs H; simpl iter_pos.
  - destruct (shr_1_bound mrs H) as [A B].
    destruct (IH _ A) as [A1 B1]. destruct (IH _ A1) as [A2 B2].
    split; [exact A2|].
    replace (Z.pos p~1) with (Z.pos p + Z.pos p + 1) by lia.
    rewrite !Z.pow_add_r, Z.pow_1_r by lia.
    assert (0 < 2 ^ Z.pos p) by (apply Z.pow_pos_nonneg; lia). nia.
  - destruct (IH _ H) as [A1 B1]. destruct (IH _ A1) as [A2 B2].
    split; [exact A2|].
    replace (Z.pos p~0) with (Z.pos p + Z.pos p) by lia.
    rewrite !Z.pow_add_r by lia.
    assert (0 < 2 ^ Z.pos p) by (apply Z.pow_pos_nonneg; lia). nia.
  - destruct (shr_1_bound mrs H) as [A B]. split; [exact A|]. rewrite Z.pow_1_r. lia.
Qed.

Lemma fexp64_le (x b : Z) : x <= b + 53 -> -1074 <= b -> PyFloat.fexp64 x <= b.
Proof. unfold PyFloat.fexp64, fexp, emin, PyFloat.prec, PyFloat.emax. lia. Qed.

(** After the shift: exponent and mantissa bounds. *)
Lemma shr_fexp_bound (b m e k : Z) (l : location) :
  969 <= b <= 1022 ->
  0 <= m < 2 ^ k -> 0 <= k -> e <= 971 -> k + e <= b ->
  let '(mrs, e1) := shr_fexp PyFloat.prec PyFloat.emax m e l in
  e1 <= 971
  /\ exists k1, 0 <= k1 /\ 0 <= shr_m mrs < 2 ^ k1 /\ k1 + e1 <= b.
Proof.
  intros Bb [M0 M1] K E KE. unfold shr_fexp, shr.
  pose proof (Zdigits2_le m k (conj M0 M1) K) as D.
  fold PyFloat.fexp64.
  assert (F : PyFloat.fexp64 (Zdigits2 m + e) <= 969) by (apply fexp64_le; lia).
  destruct (PyFloat.fexp64 (Zdigits2 m + e) - e) as [|n|n] eqn:N.
  - split; [exact E|]. exists k. destruct l as [|[]]; simpl; repeat split; lia.
  - split; [lia|].
    destruct (iter_shr_1_bound n (shr_record_of_loc m l)) as [A B].
    { destruct l as [|[]]; simpl; lia. }
    assert (Hm : shr_m (shr_record_of_loc m l) = m) by (destruct l as [|[]]; reflexivity).
    rewrite Hm in B.
    assert (P : 0 < 2 ^ Z.pos n) by (apply Z.pow_pos_nonneg; lia).
    destruct (Z_lt_le_dec k (Z.pos n)) as [C|C].
    + exists 0. split; [lia|]. split; [|lia]. split; [exact A|].
      assert (2 ^ k < 2 ^ Z.pos n) by (apply Z.pow_lt_mono_r; lia).
      change (2 ^ 0) with 1. nia.
    + exists (k - Z.pos n). split; [lia|]. split; [|lia]. split; [exact A|].
      assert (2 ^ k = 2 ^ Z.pos n * 2 ^ (k - Z.pos n))
        by (rewrite <- Z.pow_add_r by lia; f_equal; lia).
      nia.
  - split; [exact E|]. exists k. destruct l as [|[]]; simpl; repeat split; lia.
Qed.

Lemma round_nearest_even_bound (m : Z) (l : location) :
  m <= round_nearest_even m l <= m + 1.
Proof.
  unfold round_nearest_even. destruct l as [|[]]; try lia.
  destruct (Z.even m); lia.
Qed.

(** A mantissa and an exponent that stay below 2^1021 round to a finite
    double, a zero or a NaN, never to an infinity. *)
Lemma binary_round_aux_not_infinite (s : bool) (m e k : Z) (l : location) :
  0 <= m < 2 ^ k -> 0 <= k -> e <= 971 -> k + e <= 1021 ->
  PyFloat.is_infinite (binary_round_aux PyFloat.prec PyFloat.emax s m e l) = false.
Proof.
  intros M K E KE. unfold binary_round_aux.
  pose proof (shr_fexp_bound 1021 m e k l ltac:(lia) M K E KE) as S1.
  destruct (shr_fexp PyFloat.prec PyFloat.emax m e l) as [mrs1 e1].
  destruct S1 as (E1 & k1 & K1 & M1 & KE1).
  pose proof (round_nearest_even_bound (shr_m mrs1) (loc_of_shr_record mrs1)) as R.
  assert (P : 2 ^ (k1 + 1) = 2 * 2 ^ k1) by (rewrite Z.pow_add_r by lia; lia).
  pose proof (shr_fexp_bound 1022
                (round_nearest_even (shr_m mrs1) (loc_of_shr_record mrs1))
                e1 (k1 + 1) loc_Exact ltac:(lia) ltac:(lia) ltac:(lia) E1 ltac:(lia)) as S2.
  destruct (shr_fexp PyFloat.prec PyFloat.emax _ e1 loc_Exact) as [mrs2 e2].
  destruct S2 as (E2 & _).
  destruct (shr_m mrs2); try reflexivity.
  replace (e2 <=? PyFloat.emax - PyFloat.prec) with true; [reflexivity|].
  symmetry. apply Z.leb_le. unfold PyFloat.emax, PyFloat.prec. lia.
Qed.

(** The quotient of two integers is a double as long as it is below
    2^1000 in absolute value. *)
Lemma int_quotient_not_infinite (a b : Z) :
  b <> 0 -> Z.abs a < 2 ^ 1000 * Z.abs b ->
  PyFloat.is_infinite (SFdiv PyFloat.prec PyFloat.emax (PyFloat.of_Z a) (PyFloat.of_Z b))
  = false.
Proof.
  intros B A.
  assert (G : forall sa sb ma mb,
             Z.pos ma < 2 ^ 1000 * Z.pos mb ->
             PyFloat.is_infinite
               (SFdiv PyFloat.prec PyFloat.emax
                      (S754_finite sa ma 0) (S754_finite sb mb 0)) = false).
  { clear. intros sa sb ma mb H. unfold SFdiv, SFdiv_core_binary.
    fold PyFloat.fexp64.
    set (e' := Z.min (PyFloat.fexp64 (Zdigits2 (Z.pos ma) + 0 - (Zdigits2 (Z.pos mb) + 0))) (0 - 0)).
    assert (E' : e' <= 0) by (unfold e'; lia).
    assert (L' : -1074 <= e').
    { unfold e', PyFloat.fexp64, fexp, emin, PyFloat.prec, PyFloat.emax. lia. }
    set (m' := match 0 - 0 - e' with
               | 0 => Z.pos ma
               | Z.pos _ => Z.shiftl (Z.pos ma) (0 - 0 - e')
               | Z.neg _ => 0
               end).
    assert (M' : m' = Z.pos ma * 2 ^ (- e')).
    { unfold m'. destruct (0 - 0 - e') as [|p|p] eqn:S.
      - replace (- e') with 0 by lia. simpl. lia.
      - rewrite Z.shiftl_mul_pow2 by lia. f_equal. f_equal. lia.
      - lia. }
    pose proof (Z_div_mod m' (Z.pos mb) ltac:(lia)) as DM.
    destruct (Z.div_eucl m' (Z.pos mb)) as [q r].
    destruct DM as [DM R].
    assert (P : 0 < 2 ^ (- e')) by (apply Z.pow_pos_nonneg; lia).
    apply (binary_round_aux_not_infinite _ q e' (1000 - e')); try lia.
    replace (1000 - e') with (1000 + - e') by lia.
    rewrite Z.pow_add_r by lia.
    assert (T : 0 < 2 ^ 1000) by (apply Z.pow_pos_nonneg; lia).
    revert H T. generalize (2 ^ 1000). intros t H T.
    assert (Q0 : 0 <= q) by nia.
    split; [exact Q0|].
    assert (q * Z.pos mb < t * 2 ^ (- e') * Z.pos mb) by nia.
    nia. }
  destruct a as [|ma|ma], b as [|mb|mb]; try contradiction; try reflexivity;
    apply G; simpl in A; lia.
Qed.

Lemma int_truediv_ok (a b : Z) :
  b <> 0 -> Z.abs a < 2 ^ 1000 * Z.abs b ->
  exists q, PyFloat.int_truediv a b = Ok q.
Proof.
  intros B A. unfold PyFloat.int_truediv.
  replace (b =? 0) with false by (symmetry; now apply Z.eqb_neq).
  rewrite (int_quotient_not_infinite a b B A). eexists. reflexivity.
Qed.

(** Rounding half to even moves a quotient by at most one half. *)
Lemma round_half_even_nearest (n d : Z) :
  0 < d -> 2 * Z.abs (n - d * PyFloat.round_half_even n d) <= d.
Proof.
  intros D. unfold PyFloat.round_half_even.
  pose proof (Z.div_mod n d ltac:(lia)) as E.
  pose proof (Z.mod_pos_bound n d D) as R.
  revert E R. generalize (n / d), (n mod d). intros q r E R.
  assert (E0 : n - d * q = r) by lia.
  assert (E1 : n - d * (q + 1) = r - d) by lia.
  destruct (2 * r ?= d) eqn:C.
  - apply Z.compare_eq in C. destruct (Z.even q); rewrite ?E0, ?E1; lia.
  - change (2 * r < d) in C. rewrite E0. lia.
  - apply Z.compare_gt_iff in C. rewrite E1. lia.
Qed.

End FloatFacts.

(** ** Fetch with retry *)
Section FetchFacts.

Variable env : Env.

Lemma calculate_engagement_rate_eq (p : Profile) (w : World) :
  calculate_engagement_rate p w = (Ok (engagement_value p), engagement_world p w).
Proof.
  unfold calculate_engagement_rate, engagement_rate_body, try_except,
    engagement_value, engagement_world.
  destruct (p_followers p =? 0); [reflexivity|].
  unfold bind, int_div, ret.
  destruct (PyFloat.int_truediv (p_followees p) (p_followers p)); reflexivity.
Qed.

Lemma fetch_attempt_ok (u : string) (w : World) (p : Profile) :
  env_from_username env (calls w) u = Ok p ->
  fetch_attempt env u w =
    (Ok (Some (build_record p (env_now env (ticks w)) (engagement_value p)), None),
     after_success p w).
Proof.
  intros H. unfold fetch_attempt, bind, Profile_from_username.
  rewrite H. cbn [datetime_now with_call ticks].
  rewrite calculate_engagement_rate_eq. reflexivity.
Qed.

Lemma fetch_attempt_raise (u : string) (w : World) (e : exn) :
  env_from_username env (calls w) u = Raise e ->
  fetch_attempt env u w = (Raise e, with_call w).
Proof.
  intros H. unfold fetch_attempt, bind, Profile_from_username.
  rewrite H. reflexivity.
Qed.

Lemma fetch_success (u : string) (rc : nat) (w : World) (p : Profile) :
  outcome env u w = Ok p ->
  fetch_profile_data env u rc w =
    (Ok (Some (build_record p (env_now env (ticks w)) (engagement_value p)), None),
     after_success p (attempt_world w)).
Proof.
  intros H. rewrite fetch_profile_data_equation_1.
  unfold rate_limit, bind, time_sleep, try_except.
  rewrite (fetch_attempt_ok u (with_sleep 2 w) p H). reflexivity.
Qed.

Lemma fetch_not_exist (u : string) (rc : nat) (w : World) (m : string) :
  outcome env u w = Raise (ProfileNotExistsException m) ->
  fetch_profile_data env u rc w =
    (Ok (None, Some (not_exist_error u)), after_failure w).
Proof.
  intros H. rewrite fetch_profile_data_equation_1.
  unfold rate_limit, bind, time_sleep, try_except.
  rewrite (fetch_attempt_raise u (with_sleep 2 w) _ H). reflexivity.
Qed.

Lemma fetch_other (u : string) (rc : nat) (w : World) (e : exn) :
  outcome env u w = Raise e -> terminal e = true ->
  fetch_profile_data env u rc w =
    (Ok (None, Some (other_error u e)), after_failure w).
Proof.
  intros H T. rewrite fetch_profile_data_equation_1.
  unfold rate_limit, bind, time_sleep, try_except.
  rewrite (fetch_attempt_raise u (with_sleep 2 w) _ H).
  destruct e; simpl in T; try discriminate; reflexivity.
Qed.

Lemma fetch_retry (u : string) (rc : nat) (w : World) (m : string) :
  outcome env u w = Raise (ConnectionException m) ->
  (rc < MAX_RETRIES - 1)%nat ->
  fetch_profile_data env u rc w =
    fetch_profile_data env u (rc + 1) (with_sleep RETRY_DELAY (after_failure w)).
Proof.
  intros H L. rewrite fetch_profile_data_equation_1.
  unfold rate_limit, bind, time_sleep, try_except.
  rewrite (fetch_attempt_raise u (with_sleep 2 w) _ H).
  destruct (lt_dec rc (MAX_RETRIES - 1)); [reflexivity | contradiction].
Qed.

Lemma fetch_exhausted (u : string) (rc : nat) (w : World) (m : string) :
  outcome env u w = Raise (ConnectionException m) ->
  (MAX_RETRIES - 1 <= rc)%nat ->
  fetch_profile_data env u rc w =
    (Ok (None, Some (connection_error u)), after_failure w).
Proof.
  intros H L. rewrite fetch_profile_data_equation_1.
  unfold rate_limit, bind, time_sleep, try_except.
  rewrite (fetch_attempt_raise u (with_sleep 2 w) _ H).
  destruct (lt_dec rc (MAX_RETRIES - 1)); [lia | reflexivity].
Qed.

(** C2.  Fetch with retry, from the state [w] in which the oracle's next
    answers are those of calls [calls w], [calls w + 1], ...
    - a profile that does not exist is reported at once: one call to the
      source, no sleep but the decorator's, whatever the retry count;
    - so is any exception other than a connection failure;
    - a connection failure with attempts left sleeps [RETRY_DELAY] and runs
      the whole operation again with the retry count one higher;
    - three connection failures in a row end with the connection error of
      the third attempt, after exactly three calls;
    - two connection failures followed by an answer end with the record
      of that answer, after exactly three calls. *)
Theorem fetch_retry_policy (u : string) (w : World) :
  (forall rc m,
      outcome env u w = Raise (ProfileNotExistsException m) ->
      exists w',
        fetch_profile_data env u rc w = (Ok (None, Some (not_exist_error u)), w')
        /\ calls w' = S (calls w) /\ slept w' = 2 :: slept w)
  /\ (forall rc e,
        outcome env u w = Raise e -> terminal e = true ->
        exists w',
          fetch_profile_data env u rc w = (Ok (None, Some (other_error u e)), w')
          /\ calls w' = S (calls w) /\ slept w' = 2 :: slept w)
  /\ (forall rc m,
        outcome env u w = Raise (ConnectionException m) ->
        (rc < MAX_RETRIES - 1)%nat ->
        fetch_profile_data env u rc w =
          fetch_profile_data env u (rc + 1) (with_sleep RETRY_DELAY (after_failure w)))
  /\ (forall m1 m2 m3,
        env_from_username env (calls w) u = Raise (ConnectionException m1) ->
        env_from_username env (S (calls w)) u = Raise (ConnectionException m2) ->
        env_from_username env (S (S (calls w))) u = Raise (ConnectionException m3) ->
        exists w',
          fetch_profile_data env u 0 w = (Ok (None, Some (connection_error u)), w')
          /\ calls w' = (calls w + 3)%nat
          /\ slept w' = [2; 5; 2; 5; 2] ++ slept w)
  /\ (forall m1 m2 p,
        env_from_username env (calls w) u = Raise (ConnectionException m1) ->
        env_from_username env (S (calls w)) u = Raise (ConnectionException m2) ->
        env_from_username env (S (S (calls w))) u = Ok p ->
        exists d w',
          fetch_profile_data env u 0 w = (Ok (Some d, None), w')
          /\ username d = p_username p
          /\ calls w' = (calls w + 3)%nat).
Proof.
  repeat split.
  - intros rc m H. eexists. split; [apply (fetch_not_exist u rc w m H)|].
    split; reflexivity.
  - intros rc e H T. eexists. split; [apply (fetch_other u rc w e H T)|].
    split; reflexivity.
  - intros rc m H L. apply (fetch_retry u rc w m H L).
  - intros m1 m2 m3 H1 H2 H3.
    eexists. split.
    + rewrite (fetch_retry u 0 w m1 H1) by (unfold MAX_RETRIES; lia).
      set (w2 := with_sleep RETRY_DELAY (after_failure w)).
      rewrite (fetch_retry u (0 + 1) w2 m2 H2) by (unfold MAX_RETRIES; lia).
      set (w3 := with_sleep RETRY_DELAY (after_failure w2)).
      apply (fetch_exhausted u (0 + 1 + 1) w3 m3 H3). unfold MAX_RETRIES; lia.
    + split; [simpl; lia | reflexivity].
  - intros m1 m2 p H1 H2 H3.
    eexists _, _. split; [|split].
    + rewrite (fetch_retry u 0 w m1 H1) by (unfold MAX_RETRIES; lia).
      set (w2 := with_sleep RETRY_DELAY (after_failure w)).
      rewrite (fetch_retry u (0 + 1) w2 m2 H2) by (unfold MAX_RETRIES; lia).
      set (w3 := with_sleep RETRY_DELAY (after_failure w2)).
      apply (fetch_success u (0 + 1 + 1) w3 p H3).
    + reflexivity.
    + unfold after_success, engagement_world.
      destruct (p_followers p =? 0); simpl; lia.
Qed.

(** Whatever the oracle answers, a call returns, with exactly one of a
    record and an error, and without touching the cache or its file. *)
Lemma fetch_profile_data_returns (k : nat) :
  forall (u : string) (rc : nat) (w : World),
    (MAX_RETRIES - rc <= k)%nat ->
    exists r w',
      fetch_profile_data env u rc w = (Ok r, w')
      /\ exactly_one r /\ same_store w w'.
Proof.
  induction k as [|k IH]; intros u rc w Hk.
  - destruct (outcome env u w) as [p|e] eqn:O.
    + eexists _, _. split; [apply (fetch_success u rc w p O)|].
      split; [exact I|].
      unfold after_success, engagement_world, same_store.
      destruct (p_followers p =? 0); repeat split.
    + destruct e;
        try (eexists _, _; split;
             [apply (fetch_other u rc w _ O); reflexivity
             | split; [reflexivity | repeat split]]).
      * eexists _, _. split; [apply (fetch_not_exist u rc w _ O)|].
        split; [reflexivity | repeat split].
      * eexists _, _. split; [apply (fetch_exhausted u rc w _ O); lia|].
        split; [reflexivity | repeat split].
  - destruct (outcome env u w) as [p|e] eqn:O.
    + eexists _, _. split; [apply (fetch_success u rc w p O)|].
      split; [exact I|].
      unfold after_success, engagement_world, same_store.
      destruct (p_followers p =? 0); repeat split.
    + destruct e;
        try (eexists _, _; split;
             [apply (fetch_other u rc w _ O); reflexivity
             | split; [reflexivity | repeat split]]).
      * eexists _, _. split; [apply (fetch_not_exist u rc w _ O)|].
        split; [reflexivity | repeat split].
      * destruct (lt_dec rc (MAX_RETRIES - 1)) as [L|L].
        -- rewrite (fetch_retry u rc w _ O L).
           destruct (IH u (rc + 1)%nat (with_sleep RETRY_DELAY (after_failure w)))
             as (r & w' & E & X & S); [lia|].
           exists r, w'. split; [exact E|]. split; [exact X|].
           exact S.
        -- eexists _, _. split; [apply (fetch_exhausted u rc w _ O); lia|].
           split; [reflexivity | repeat split].
Qed.

End FetchFacts.

Lemma fetch_retry_policy_witness :
  exists w',
    fetch_profile_data Sample.unreachable "nasa" 0 Sample.fresh_world
      = (Ok (None, Some "Connection error for 'nasa'"), w')
    /\ calls w' = 3%nat
    /\ slept w' = [2; 5; 2; 5; 2].
Proof.
  destruct (fetch_retry_policy Sample.unreachable "nasa" Sample.fresh_world)
    as (_ & _ & _ & H & _).
  apply (H "timed out" "timed out" "timed out"); reflexivity.
Defined.

(** ** The engagement ratio *)
Section EngagementFacts.

(** C6.  [calculate_engagement_rate] returns for every profile.  With
    no follower it returns [0.0] and leaves the state as it found it: no
    division is evaluated.  Whenever following divided by followers, times
    100, rounded to 2 decimals has a value, that value is what it returns,
    and there is one for every profile with followers whose following
    count is below 2^1000 times its follower count; when the expression
    has no value, [0.0] is returned.  The ratio is the one the record of a
    fetched profile carries. *)
Theorem engagement_rate_formula (p : Profile) (w : World) :
  exists rate w',
    calculate_engagement_rate p w = (Ok rate, w')
    /\ (p_followers p = 0 -> rate = PyFloat.pos_zero /\ w' = w)
    /\ (forall v, ratio_formula (p_followees p) (p_followers p) = Ok v -> rate = v)
    /\ (forall e, ratio_formula (p_followees p) (p_followers p) = Raise e ->
                  rate = PyFloat.pos_zero)
    /\ (p_followers p <> 0 ->
        Z.abs (p_followees p) < 2 ^ 1000 * Z.abs (p_followers p) ->
        ratio_formula (p_followees p) (p_followers p) = Ok rate)
    /\ (forall env u rc w0,
          outcome env u w0 = Ok p ->
          exists d w1,
            fetch_profile_data env u rc w0 = (Ok (Some d, None), w1)
            /\ engagementRate d = rate).
Proof.
  exists (engagement_value p), (engagement_world p w).
  split; [apply calculate_engagement_rate_eq|].
  unfold engagement_value, engagement_world, ratio_formula, result_bind.
  split; [|split; [|split; [|split]]].
  - intros Z. rewrite Z. split; reflexivity.
  - intros v. destruct (p_followers p =? 0) eqn:Z.
    + apply Z.eqb_eq in Z. unfold PyFloat.int_truediv. rewrite Z. discriminate.
    + destruct (PyFloat.int_truediv _ _); [|discriminate].
      intros H. now injection H.
  - intros e. destruct (p_followers p =? 0); [reflexivity|].
    destruct (PyFloat.int_truediv _ _); [discriminate | reflexivity].
  - intros N B. replace (p_followers p =? 0) with false
      by (symmetry; now apply Z.eqb_neq).
    destruct (int_truediv_ok _ _ N B) as [q Q]. rewrite Q. reflexivity.
  - intros env u rc w0 O. eexists _, _.
    split; [apply (fetch_success env u rc w0 p O)|]. reflexivity.
Qed.

End EngagementFacts.

Lemma engagement_rate_formula_witness :
  calculate_engagement_rate Sample.newcomer Sample.fresh_world
    = (Ok PyFloat.pos_zero, Sample.fresh_world)
  /\ fst (calculate_engagement_rate Sample.nasa Sample.fresh_world)
     = ratio_formula 90 97000000.
Proof.
  split.
  - destruct (engagement_rate_formula Sample.newcomer Sample.fresh_world)
      as (rate & w' & E & Z & _).
    destruct (Z eq_refl) as [-> ->]. exact E.
  - destruct (engagement_rate_formula Sample.nasa Sample.fresh_world)
      as (rate & w' & E & _ & _ & _ & F & _).
    rewrite E. symmetry. apply F; [discriminate | reflexivity].
Defined.

(** ** Sorting by followers *)
Section SortFacts.

Lemma insert_desc_perm (x : ProfileRecord) (l : list ProfileRecord) :
  Permutation (insert_desc x l) (x :: l).
Proof.
  induction l as [|y r IH]; simpl; [reflexivity|].
  destruct (followers x <? followers y); [|reflexivity].
  rewrite IH. apply perm_swap.
Qed.

Lemma sort_perm (l : list ProfileRecord) :
  Permutation (sort_by_followers_desc l) l.
Proof.
  induction l as [|x l IH]; simpl; [reflexivity|].
  rewrite insert_desc_perm. now constructor.
Qed.

Lemma sort_length (l : list ProfileRecord) :
  List.length (sort_by_followers_desc l) = List.length l.
Proof. apply Permutation_length, sort_perm. Qed.

Lemma insert_desc_sorted (x : ProfileRecord) (l : list ProfileRecord) :
  sorted_desc l -> sorted_desc (insert_desc x l).
Proof.
  unfold sorted_desc. induction 1 as [|y r S IH F]; simpl.
  - constructor; constructor.
  - destruct (followers x <? followers y) eqn:C.
    + apply Z.ltb_lt in C. constructor; [exact IH|].
      apply (Permutation_Forall (Permutation_sym (insert_desc_perm x r))).
      constructor; [lia | exact F].
    + apply Z.ltb_ge in C. constructor; [constructor; assumption|].
      constructor; [exact C|].
      eapply Forall_impl; [|exact F]. cbv beta. intros; lia.
Qed.

Lemma sort_sorted (l : list ProfileRecord) :
  sorted_desc (sort_by_followers_desc l).
Proof.
  induction l as [|x l IH]; simpl; [constructor|].
  apply insert_desc_sorted, IH.
Qed.

Lemma insert_desc_stable (k : Z) (x : ProfileRecord) (l : list ProfileRecord) :
  with_followers k (insert_desc x l) = with_followers k (x :: l).
Proof.
  unfold with_followers. induction l as [|y r IH]; [reflexivity|].
  simpl insert_desc. destruct (followers x <? followers y) eqn:C; [|reflexivity].
  apply Z.ltb_lt in C. simpl in *. rewrite IH.
  destruct (followers x =? k) eqn:X; destruct (followers y =? k) eqn:Y;
    try reflexivity.
  apply Z.eqb_eq in X. apply Z.eqb_eq in Y. lia.
Qed.

Lemma sort_stable (k : Z) (l : list ProfileRecord) :
  with_followers k (sort_by_followers_desc l) = with_followers k l.
Proof.
  induction l as [|x l IH]; [reflexivity|].
  simpl sort_by_followers_desc. rewrite insert_desc_stable.
  unfold with_followers in *. simpl. rewrite IH. reflexivity.
Qed.

Lemma filter_sorted (f : ProfileRecord -> bool) (l : list ProfileRecord) :
  sorted_desc l -> sorted_desc (filter f l).
Proof.
  unfold sorted_desc. induction 1 as [|y r S IH F]; simpl; [constructor|].
  destruct (f y); [|exact IH].
  constructor; [exact IH|].
  apply Forall_forall. intros z Hz. apply filter_In in Hz.
  rewrite Forall_forall in F. apply F, Hz.
Qed.

Lemma firstn_sorted (n : nat) (l : list ProfileRecord) :
  sorted_desc l -> sorted_desc (firstn n l).
Proof.
  unfold sorted_desc. intros S. revert n.
  induction S as [|y r S IH F]; intros [|n]; simpl; try constructor.
  - apply IH.
  - apply Forall_forall. intros z Hz. rewrite Forall_forall in F.
    apply F. revert Hz. clear. revert n.
    induction r as [|a r IH]; intros [|n]; simpl; try tauto.
    intros [H|H]; [now left | right; eapply IH; exact H].
Qed.

Lemma pairs_of_sorted (l : list ProfileRecord) :
  sorted_desc l ->
  pairs_sorted_desc (map (fun p => (username p, followers p)) l).
Proof.
  unfold sorted_desc, pairs_sorted_desc.
  induction 1 as [|y r S IH F]; simpl; constructor; [exact IH|].
  apply Forall_map. exact F.
Qed.

End SortFacts.

(** ** The refresh run *)
Section RefreshFacts.

Variable env : Env.

Lemma save_cache_eq (c : Cache) (w : World) :
  save_cache env c w = (Ok tt, with_disk (saved_disk env c w) w).
Proof.
  unfold save_cache, try_except, json_dump_file, saved_disk.
  destruct (env_write env (writes w)); reflexivity.
Qed.

Lemma gots_app (a b : list Outcome) : gots (a ++ b) = gots a ++ gots b.
Proof.
  induction a as [|[r|e] a IH]; simpl; [reflexivity| |exact IH].
  now rewrite IH.
Qed.

Lemma fails_app (a b : list Outcome) : fails (a ++ b) = fails a ++ fails b.
Proof.
  induction a as [|[r|e] a IH]; simpl; [reflexivity|exact IH|].
  now rewrite IH.
Qed.

Lemma gots_fails_length (l : list Outcome) :
  (List.length (gots l) + List.length (fails l) = List.length l)%nat.
Proof.
  induction l as [|[r|e] l IH]; simpl; lia.
Qed.

(** One turn of the loop files the result under exactly one heading. *)
Lemma collect_exactly_one (u : string) (r : FetchResult) :
  exactly_one r ->
  exists o,
    outcome_for u o
    /\ forall ps es, collect u r (ps, es) = (ps ++ gots [o], es ++ fails [o]).
Proof.
  destruct r as [[d|] [e|]]; simpl; intros X; try contradiction.
  - exists (Got d). split; [exact I|]. intros. simpl. now rewrite app_nil_r.
  - exists (Failed {| err_username := u; err_error := e |}).
    split; [reflexivity|]. intros. rewrite X. simpl. now rewrite app_nil_r.
Qed.

Lemma fetch_all_spec (usernames : list string) :
  forall (acc : list ProfileRecord * list FetchError) (w : World),
  exists outs w',
    fetch_all env usernames acc w
      = (Ok (fst acc ++ gots outs, snd acc ++ fails outs), w')
    /\ Forall2 outcome_for usernames outs
    /\ same_store w w'.
Proof.
  induction usernames as [|u rest IH]; intros [ps es] w.
  - exists [], w. simpl. rewrite !app_nil_r.
    split; [reflexivity|]. split; [constructor | repeat split].
  - destruct (fetch_profile_data_returns env MAX_RETRIES u 0%nat w)
      as (r & w1 & E & X & S1); [lia|].
    destruct (collect_exactly_one u r X) as (o & T & C).
    destruct (IH (collect u r (ps, es)) w1) as (outs & w' & E' & F & S2).
    exists (o :: outs), w'. split; [|split].
    + simpl fetch_all. unfold bind at 1. rewrite E, E', C. simpl fst. simpl snd.
      rewrite <- !app_assoc.
      change (o :: outs) with ([o] ++ outs).
      now rewrite gots_app, fails_app.
    + constructor; assumption.
    + destruct S1 as (A1 & B1 & C1), S2 as (A2 & B2 & C2).
      repeat split; congruence.
Qed.

(** A refresh run, once the loop is known to have fetched [fetched]. *)
Lemma update_cache_data_over_eq (usernames : list string) (w w1 : World)
      (fetched : list ProfileRecord * list FetchError) :
  fetch_all env usernames ([], []) w = (Ok fetched, w1) ->
  update_cache_data_over env usernames w
    = (Ok (sort_by_followers_desc (fst fetched), snd fetched),
       after_refresh env fetched w1).
Proof.
  intros E. unfold update_cache_data_over. unfold bind at 1. rewrite E.
  unfold modify_cache, read_cache, write_cache, datetime_now, bind, ret.
  cbn [cache with_cache with_tick].
  rewrite save_cache_eq. reflexivity.
Qed.

(** C1.  A call of [fetch_profile_data] returns, and returns either a
    record and no error or an error and no record.  A refresh run over any
    list of usernames returns, and there is one outcome per username, in
    the order of the list, each a record or an error naming that username,
    such that the records returned are the records among the outcomes
    (sorted), the errors returned are the errors among them, and the two
    lists together are as long as the list of usernames. *)
Theorem refresh_one_outcome_per_username (usernames : list string) (w : World) :
  (forall u rc w0,
      exists r w1,
        fetch_profile_data env u rc w0 = (Ok r, w1)
        /\ ((exists d, r = (Some d, None)) \/ (exists e, r = (None, Some e))))
  /\ exists outs ps es w',
      update_cache_data_over env usernames w = (Ok (ps, es), w')
      /\ Forall2 outcome_for usernames outs
      /\ ps = sort_by_followers_desc (gots outs)
      /\ Permutation ps (gots outs)
      /\ es = fails outs
      /\ (List.length ps + List.length es = List.length usernames)%nat.
Proof.
  split.
  - intros u rc w0.
    destruct (fetch_profile_data_returns env (MAX_RETRIES - rc) u rc w0)
      as (r & w1 & E & X & _); [lia|].
    exists r, w1. split; [exact E|].
    destruct r as [[d|] [e|]]; simpl in X; try contradiction; eauto.
  - destruct (fetch_all_spec usernames ([], []) w) as (outs & w1 & E & F & _).
    simpl fst in E. simpl snd in E. simpl app in E.
    exists outs, (sort_by_followers_desc (gots outs)), (fails outs).
    eexists. split; [apply (update_cache_data_over_eq usernames w w1 _ E)|].
    split; [exact F|]. split; [reflexivity|].
    split; [apply sort_perm|]. split; [reflexivity|].
    rewrite sort_length, gots_fails_length.
    symmetry. apply (Forall2_length F).
Qed.

End RefreshFacts.

(** Three usernames, the second unknown to the source, the third answered
    at the third attempt: two records, one error, one more run counted. *)
Example refresh_scenario :
  let run := update_cache_data_over Sample.flaky ["nasa"; "ghost"; "nike"]
                                    Sample.fresh_world in
  (exists ps,
      fst run
      = Ok (ps, [{| err_username := "ghost";
                    err_error := "Profile 'ghost' does not exist" |}])
      /\ map username ps = ["nike"; "nasa"])
  /\ fetch_count (cache (snd run)) = 1
  /\ calls (snd run) = 5%nat
  /\ disk (snd run) = Stored (snapshot_of (cache (snd run))).
Proof. vm_compute. split; [eexists; split; reflexivity | repeat split]. Qed.

(** ** Failing writes *)
Section SaveFacts.

Variable env : Env.

(** The fate of the writes has no part in what a call fetches. *)
Lemma fetch_profile_data_write_irrelevant (f : nat -> WriteOutcome) (k : nat) :
  forall (u : string) (rc : nat) (w : World),
    (MAX_RETRIES - rc <= k)%nat ->
    fetch_profile_data (with_write f env) u rc w = fetch_profile_data env u rc w.
Proof.
  induction k as [|k IH]; intros u rc w Hk;
    rewrite !fetch_profile_data_equation_1;
    unfold rate_limit, bind, time_sleep, try_except;
    change (fetch_attempt (with_write f env) u) with (fetch_attempt env u);
    destruct (fetch_attempt env u (with_sleep 2 w)) as [[r|e] w1];
    try reflexivity; destruct e; try reflexivity;
    destruct (lt_dec rc (MAX_RETRIES - 1)); try reflexivity; try lia;
    try (apply IH; lia).
Qed.

Lemma fetch_all_write_irrelevant (f : nat -> WriteOutcome) (usernames : list string) :
  forall acc w,
    fetch_all (with_write f env) usernames acc w = fetch_all env usernames acc w.
Proof.
  induction usernames as [|u rest IH]; intros acc w; [reflexivity|].
  simpl. unfold bind.
  rewrite (fetch_profile_data_write_irrelevant f MAX_RETRIES) by lia.
  destruct (fetch_profile_data env u 0 w) as [[r|e] w1]; [apply IH | reflexivity].
Qed.

(** C8.  [save_cache] returns whatever happens to the write, and leaves the
    cache as it was.  A refresh run returns its records and errors and
    installs them in the cache; with any other fate [f] of the writes it
    returns the same and leaves the same cache. *)
Theorem save_failure_is_contained (f : nat -> WriteOutcome) (c : Cache)
        (usernames : list string) (w : World) :
  (exists w', save_cache (with_write f env) c w = (Ok tt, w') /\ cache w' = cache w)
  /\ (exists ps es w',
        update_cache_data_over env usernames w = (Ok (ps, es), w')
        /\ profiles (cache w') = ps /\ errors (cache w') = es)
  /\ fst (update_cache_data_over (with_write f env) usernames w)
     = fst (update_cache_data_over env usernames w)
  /\ cache (snd (update_cache_data_over (with_write f env) usernames w))
     = cache (snd (update_cache_data_over env usernames w)).
Proof.
  destruct (fetch_all_spec env usernames ([], []) w) as (outs & w1 & E & _ & _).
  pose proof (fetch_all_write_irrelevant f usernames ([], []) w) as E'.
  rewrite E in E'.
  rewrite (update_cache_data_over_eq env usernames w w1 _ E).
  split; [|split; [|split]].
  - rewrite save_cache_eq. eexists. split; reflexivity.
  - eexists _, _, _. split; [reflexivity|]. split; reflexivity.
  - now rewrite (update_cache_data_over_eq (with_write f env) usernames w w1 _ E').
  - now rewrite (update_cache_data_over_eq (with_write f env) usernames w w1 _ E').
Qed.

End SaveFacts.

(** ** The cache file *)
Section StoreFacts.

Variable env : Env.

Lemma load_cache_eq (w : World) :
  load_cache env w = (Ok (load_result env w), load_world w).
Proof.
  unfold load_cache, load_cache_body, try_except, load_result, load_world.
  unfold bind at 1. unfold path_exists.
  destruct (disk w) as [| |d] eqn:D; try reflexivity.
  - unfold bind, json_load_file. rewrite D. reflexivity.
  - unfold bind at 1. unfold json_load_file. rewrite D.
    destruct (snap_last_update d) as [| |t|t]; try reflexivity.
    unfold bind, lift, datetime_now, ret.
    cbn [lu_truthy fromisoformat age_of with_tick].
    destruct (env_now env (ticks w) - t <? timedelta_minutes CACHE_DURATION_MINUTES);
      [|reflexivity].
    unfold len_profiles. destruct (snap_profiles d); reflexivity.
Qed.

(** C3.  With a snapshot [d] in the cache file that has its list of
    profiles, [load_cache], reading the clock at [now], returns [d] if and
    only if the timestamp of [d] is less than 30 minutes before [now], and
    returns nothing otherwise; a snapshot 29 minutes old is returned, one
    30 minutes old or older is not, and then the start of the process runs
    a refresh. *)
Theorem load_cache_freshness (w : World) (d : Snapshot) :
  disk w = Stored d ->
  snap_profiles d <> None ->
  let now := env_now env (ticks w) in
  (fst (load_cache env w) = Ok (Some d)
   <-> exists t, snap_last_update d = LU_naive t /\ now - t < timedelta_minutes 30)
  /\ (fst (load_cache env w) = Ok (Some d) \/ fst (load_cache env w) = Ok None)
  /\ (forall t, snap_last_update d = LU_naive t ->
        now - t = timedelta_minutes 29 -> fst (load_cache env w) = Ok (Some d))
  /\ (forall t, snap_last_update d = LU_naive t ->
        timedelta_minutes 30 <= now - t ->
        fst (load_cache env w) = Ok None
        /\ main env w
           = (_ <- update_cache_data env ;; ret tt)%py (snd (load_cache env w))).
Proof.
  intros D P now. rewrite load_cache_eq. unfold load_result. rewrite D.
  cbn [fst snd].
  destruct (snap_profiles d) as [ps|] eqn:Ps; [clear P | contradiction].
  change (timedelta_minutes CACHE_DURATION_MINUTES) with (timedelta_minutes 30).
  fold now.
  assert (Old : forall t, timedelta_minutes 30 <= now - t ->
                          (now - t <? timedelta_minutes 30) = false)
    by (intros; now apply Z.ltb_ge).
  split; [split | split; [|split]].
  - destruct (snap_last_update d) as [| |t|t]; try discriminate.
    destruct (now - t <? timedelta_minutes 30) eqn:C; [|discriminate].
    intros _. exists t. split; [reflexivity | now apply Z.ltb_lt].
  - intros (t & -> & L). apply Z.ltb_lt in L. now rewrite L.
  - destruct (snap_last_update d) as [| |t|t]; auto.
    destruct (now - t <? timedelta_minutes 30); auto.
  - intros t -> A.
    replace (now - t <? timedelta_minutes 30) with true; [reflexivity|].
    symmetry. apply Z.ltb_lt. rewrite A. reflexivity.
  - intros t E A. rewrite E, (Old t A). split; [reflexivity|].
    unfold main, bind at 1. rewrite load_cache_eq.
    unfold load_result. rewrite D, E.
    change (timedelta_minutes CACHE_DURATION_MINUTES) with (timedelta_minutes 30).
    fold now. rewrite (Old t A). reflexivity.
Qed.

End StoreFacts.

Lemma load_cache_freshness_witness :
  fst (load_cache Sample.flaky (Sample.restart_world (timedelta_minutes 29)))
    = Ok (Some (snapshot_of (Sample.full_cache (Sample.midnight - timedelta_minutes 29)))).
Proof.
  refine (proj1 (proj2 (proj2
    (load_cache_freshness Sample.flaky
       (Sample.restart_world (timedelta_minutes 29))
       (snapshot_of (Sample.full_cache (Sample.midnight - timedelta_minutes 29)))
       eq_refl _))) (Sample.midnight - timedelta_minutes 29) eq_refl _).
  - discriminate.
  - reflexivity.
Defined.

(** ** The HTTP API *)
Section ApiFacts.

Variable env : Env.

Lemma get_cache_age_minutes_eq (w : World) :
  get_cache_age_minutes env w = (Ok (age_value env w), age_world w).
Proof.
  unfold get_cache_age_minutes, age_value, age_world, bind, read_cache.
  destruct (last_update (cache w)); reflexivity.
Qed.

Lemma get_profiles_eq (verified m : option string) (n : Z) (w : World) :
  min_followers_arg env m = Ok n ->
  get_profiles env verified m w
    = (Ok (ProfilesBody true
             (select (verified_flag verified) n (profiles (cache w)))
             (last_update (cache w))
             (List.length (select (verified_flag verified) n (profiles (cache w))))
             (age_value env w)
             (errors (cache w))),
       age_world w).
Proof.
  intros H. unfold get_profiles, bind, lift, read_cache. rewrite H.
  rewrite get_cache_age_minutes_eq. reflexivity.
Qed.

Lemma get_profiles_raise (verified m : option string) (e : exn) (w : World) :
  min_followers_arg env m = Raise e ->
  get_profiles env verified m w = (Raise e, w).
Proof.
  intros H. unfold get_profiles, bind, lift. rewrite H. reflexivity.
Qed.

Lemma get_stats_empty (w : World) :
  profiles (cache w) = [] ->
  get_stats w = (Ok (NoStatsBody false "No data available"), w).
Proof.
  intros H. unfold get_stats, bind, read_cache. rewrite H. reflexivity.
Qed.

Lemma refresh_profiles_eq (w : World) :
  exists fetched w1,
    fetch_all env USERNAMES ([], []) w = (Ok fetched, w1)
    /\ same_store w w1
    /\ refresh_profiles env w
       = (Ok (RefreshBody true
                (sort_by_followers_desc (fst fetched))
                (Some (env_now env (ticks w1)))
                (snd fetched)
                (List.length (sort_by_followers_desc (fst fetched)))
                (List.length (snd fetched))
                (List.length USERNAMES)),
          after_refresh env fetched w1).
Proof.
  destruct (fetch_all_spec env USERNAMES ([], []) w) as (outs & w1 & E & _ & S).
  eexists _, w1. split; [exact E|]. split; [exact S|].
  unfold refresh_profiles, update_cache_data, bind.
  rewrite (update_cache_data_over_eq env USERNAMES w w1 _ E). reflexivity.
Qed.

Lemma filter_filter (f g : ProfileRecord -> bool) (l : list ProfileRecord) :
  filter f (filter g l) = filter (fun r => g r && f r) l.
Proof.
  induction l as [|x l IH]; [reflexivity|]. simpl.
  destruct (g x); simpl; [destruct (f x)|]; now rewrite IH.
Qed.

Lemma filter_true (l : list ProfileRecord) :
  filter (fun _ => true) l = l.
Proof.
  induction l as [|x l IH]; [reflexivity|]. simpl. now rewrite IH.
Qed.

(** The two filters as one, when the threshold is positive. *)
Lemma select_positive (v : bool) (n : Z) (l : list ProfileRecord) :
  0 < n ->
  select v n l = filter (fun r => (negb v || isVerified r) && (n <=? followers r)) l.
Proof.
  intros H. unfold select. apply Z.ltb_lt in H. rewrite H.
  destruct v; simpl.
  - apply filter_filter.
  - reflexivity.
Qed.

(** C7.  With no profile in the cache, [GET /api/stats] answers with
    [success: false] in a page of status 200, the state is left as it is
    (in particular no division has been evaluated), whereas the
    computation of the averages, had it been reached, would have divided
    by zero. *)
Theorem stats_on_empty_cache (w : World) :
  profiles (cache w) = [] ->
  serve env GET_stats w
    = ({| status := 200; body := NoStatsBody false "No data available" |}, w)
  /\ success_of (body (fst (serve env GET_stats w))) = Some false
  /\ divisions (snd (serve env GET_stats w)) = divisions w
  /\ fst (compute_stats (profiles (cache w)) w) = Raise ZeroDivisionError.
Proof.
  intros H. unfold serve, view. rewrite (get_stats_empty w H). cbn [fst snd body].
  repeat split. rewrite H. reflexivity.
Qed.

(** C9.  [GET /api/profiles?min_followers=1000000], with or without a
    [verified] parameter, answers with status 200 and, as data, the
    records of the cache that have at least 1,000,000 followers (and are
    verified, when [verified=true] was asked), in the order of the cache:
    every record listed meets the threshold and every record of the cache
    that meets it and passes the verified filter is listed. *)
Theorem profiles_min_followers_million (verified : option string) (w : World) :
  exists d age w',
    serve env (GET_profiles verified (Some "1000000")) w
      = ({| status := 200;
            body := ProfilesBody true d (last_update (cache w)) (List.length d)
                                 age (errors (cache w)) |}, w')
    /\ d = filter (fun r => (negb (verified_flag verified) || isVerified r)
                             && (1000000 <=? followers r))
                  (profiles (cache w))
    /\ (forall r, In r d -> 1000000 <= followers r)
    /\ (forall r, In r (profiles (cache w)) ->
                  1000000 <= followers r ->
                  (verified_flag verified = true -> isVerified r = true) ->
                  In r d).
Proof.
  eexists _, _, _. split; [|split; [|split]].
  - unfold serve, view.
    rewrite (get_profiles_eq verified (Some "1000000") 1000000 w eq_refl).
    reflexivity.
  - apply select_positive. lia.
  - intros r H. rewrite select_positive in H by lia.
    apply filter_In in H. destruct H as [_ H].
    apply andb_true_iff in H. destruct H as [_ H]. now apply Z.leb_le.
  - intros r I F V. rewrite select_positive by lia.
    apply filter_In. split; [exact I|].
    apply andb_true_iff. split; [|now apply Z.leb_le].
    destruct (verified_flag verified); [now rewrite V | reflexivity].
Qed.

(** C10.  When the [min_followers] parameter is left out or reads as an
    integer that is zero or negative, [GET /api/profiles] answers with
    status 200 and the whole list of the cache, or its verified records
    when [verified=true] was asked: no record is dropped for its number
    of followers. *)
Theorem profiles_nonpositive_min_followers
        (verified m : option string) (n : Z) (w : World) :
  min_followers_arg env m = Ok n ->
  n <= 0 ->
  exists age w',
    serve env (GET_profiles verified m) w
      = ({| status := 200;
            body :=
              let d := if verified_flag verified
                       then filter isVerified (profiles (cache w))
                       else profiles (cache w) in
              ProfilesBody true d (last_update (cache w)) (List.length d)
                           age (errors (cache w)) |}, w').
Proof.
  intros H L. eexists _, _. unfold serve, view.
  rewrite (get_profiles_eq verified m n w H). unfold select.
  replace (0 <? n) with false by (symmetry; apply Z.ltb_ge; exact L).
  reflexivity.
Qed.

Lemma compute_stats_ok (l : list ProfileRecord) (w : World) :
  l <> [] -> averages_fit l ->
  exists st, compute_stats l w = (Ok st, with_division (with_division w)).
Proof.
  intros N [A B]. unfold compute_stats, bind, int_div, PyFloat.int_truediv.
  replace (Z.of_nat (List.length l) =? 0) with false
    by (symmetry; apply Z.eqb_neq; destruct l; [contradiction | simpl; lia]).
  unfold quotient_fits in A, B.
  apply negb_true_iff in A. apply negb_true_iff in B. rewrite A, B.
  eexists. reflexivity.
Qed.

Lemma sum_Z_bound (t : Z) (l : list Z) :
  Forall (fun x => Z.abs x < t) l ->
  forall acc,
    Z.abs (fold_left Z.add l acc) + Z.of_nat (List.length l)
    <= Z.abs acc + t * Z.of_nat (List.length l).
Proof.
  induction 1 as [|x l X F IH]; intros acc; [simpl; lia|].
  simpl fold_left. specialize (IH (acc + x)).
  change (List.length (x :: l)) with (S (List.length l)). lia.
Qed.

(** Counts below 2^1000 give averages within the range of the doubles. *)
Lemma counts_fit_averages (l : list ProfileRecord) :
  l <> [] -> counts_fit l -> averages_fit l.
Proof.
  intros N C. unfold averages_fit, quotient_fits.
  assert (L : 0 < Z.of_nat (List.length l))
    by (destruct l; [contradiction | simpl; lia]).
  assert (T : 0 < 2 ^ 1000) by (apply Z.pow_pos_nonneg; lia).
  unfold counts_fit in C. remember (2 ^ 1000) as t eqn:Ht.
  assert (Fo : Forall (fun x => Z.abs x < t) (map followers l))
    by (apply Forall_map; eapply Forall_impl; [|exact C]; cbv beta; tauto).
  assert (Po : Forall (fun x => Z.abs x < t) (map posts l))
    by (apply Forall_map; eapply Forall_impl; [|exact C]; cbv beta; tauto).
  pose proof (sum_Z_bound t _ Fo 0) as Bf.
  pose proof (sum_Z_bound t _ Po 0) as Bp.
  rewrite length_map in Bf, Bp. simpl Z.abs in Bf, Bp.
  unfold sum_Z.
  split; apply negb_true_iff, int_quotient_not_infinite; try lia;
    rewrite <- Ht, (Z.abs_eq (Z.of_nat _)) by lia; lia.
Qed.

Lemma compute_stats_totals (l : list ProfileRecord) (w w' : World) (st : Stats) :
  compute_stats l w = (Ok st, w') ->
  total_followers st = sum_Z (map followers l)
  /\ total_following st = sum_Z (map following l)
  /\ total_posts st = sum_Z (map posts l).
Proof.
  unfold compute_stats, bind, int_div, ret.
  generalize (map (fun p => (username p, followers p))
                  (firstn 5 (sort_by_followers_desc l))). intros top.
  destruct (PyFloat.int_truediv _ _); [|discriminate].
  destruct (PyFloat.int_truediv _ _); [|discriminate].
  intros H. injection H as <- _. repeat split.
Qed.

Lemma stats_fit_counts (l : list ProfileRecord) : stats_fit l -> counts_fit l.
Proof.
  intros [F _]. unfold counts_fit. eapply Forall_impl; [|exact F].
  cbv beta. tauto.
Qed.

Lemma two_to_2000_printable : 2 ^ 1000 * 2 ^ 1000 < 10 ^ 4300.
Proof. vm_compute. reflexivity. Qed.

(** A sum of fewer than 2^1000 integers below 2^1000 can be printed. *)
Lemma sum_printable (l : list Z) :
  Forall (fun x => Z.abs x < 2 ^ 1000) l ->
  Z.of_nat (List.length l) < 2 ^ 1000 ->
  printable (sum_Z l) = true.
Proof.
  intros F N. unfold printable, sum_Z. apply Z.ltb_lt.
  pose proof (sum_Z_bound (2 ^ 1000) l F 0) as B. simpl Z.abs in B.
  pose proof two_to_2000_printable as P.
  revert F N B P. generalize (2 ^ 1000), (10 ^ 4300). intros t big F N B P.
  assert (0 <= Z.of_nat (List.length l)) by lia.
  nia.
Qed.

(** The statistics of a cache that is not empty and whose counts fit. *)
Lemma get_stats_ok (w : World) :
  profiles (cache w) <> [] ->
  stats_fit (profiles (cache w)) ->
  exists st,
    compute_stats (profiles (cache w)) w = (Ok st, with_division (with_division w))
    /\ get_stats w
       = (Ok (StatsBody true st (last_update (cache w))),
          with_division (with_division w)).
Proof.
  intros N F.
  destruct (compute_stats_ok (profiles (cache w)) w N
              (counts_fit_averages _ N (stats_fit_counts _ F))) as [st E].
  exists st. split; [exact E|].
  destruct (compute_stats_totals _ _ _ _ E) as (Tf & Tg & Tp).
  destruct F as [F L].
  assert (Pf : printable (total_followers st) = true).
  { rewrite Tf. apply sum_printable; [|now rewrite length_map].
    apply Forall_map. eapply Forall_impl; [|exact F]. cbv beta. tauto. }
  assert (Pg : printable (total_following st) = true).
  { rewrite Tg. apply sum_printable; [|now rewrite length_map].
    apply Forall_map. eapply Forall_impl; [|exact F]. cbv beta. tauto. }
  assert (Pp : printable (total_posts st) = true).
  { rewrite Tp. apply sum_printable; [|now rewrite length_map].
    apply Forall_map. eapply Forall_impl; [|exact F]. cbv beta. tauto. }
  unfold get_stats, bind, read_cache.
  destruct (profiles (cache w)) as [|x l] eqn:P; [contradiction|].
  rewrite E. unfold jsonify. rewrite Pf, Pg, Pp. reflexivity.
Qed.

(** C5, amended.  A request to one of the five routes whose
    [min_followers] parameter, when given, reads as an integer, is answered
    with status 200, and the body says [success: false] exactly when the
    request is [GET /api/stats] and the cache holds no profile.  This
    takes, for [GET /], a run counter below 10^4300, which can be printed,
    and for [GET /api/stats], follower, following and post counts below
    2^1000 and fewer than 2^1000 records, so that the averages are within
    the range of the doubles and the totals can be printed.  A request
    whose [min_followers] parameter [int] refuses is answered with status
    500 and no JSON body, the state being left as it was. *)
Theorem well_formed_requests_succeed (r : Request) (w : World) :
  (well_formed env r -> answer_fits r w -> answers_success env r w)
  /\ (forall v m e,
        r = GET_profiles v m ->
        min_followers_arg env m = Raise e ->
        serve env r w = ({| status := 500; body := InternalServerError |}, w)).
Proof.
  split.
  - intros WF FIT. unfold answers_success, serve, view.
    destruct r as [| |v m| |].
    + unfold index, bind, read_cache, jsonify. simpl in FIT. rewrite FIT. cbn.
      split; [reflexivity|]. split; [discriminate | intros [? _]; discriminate].
    + unfold health_check, bind, read_cache. rewrite get_cache_age_minutes_eq. cbn.
      split; [reflexivity|]. split; [discriminate | intros [? _]; discriminate].
    + destruct WF as [n H]. rewrite (get_profiles_eq v m n w H). cbn.
      split; [reflexivity|]. split; [discriminate | intros [? _]; discriminate].
    + destruct (refresh_profiles_eq w) as (f & w1 & _ & _ & E). rewrite E. cbn.
      split; [reflexivity|]. split; [discriminate | intros [? _]; discriminate].
    + simpl in FIT.
      destruct (profiles (cache w)) as [|x l] eqn:P.
      * rewrite (get_stats_empty w P). cbn.
        split; [reflexivity|]. split; auto.
      * destruct (get_stats_ok w) as (st & _ & E);
          [rewrite P; discriminate | rewrite P; exact FIT |].
        rewrite E. cbn.
        split; [reflexivity|]. split; [discriminate | intros [_ ?]; discriminate].
  - intros v m e -> H. unfold serve, view.
    rewrite (get_profiles_raise v m e w H). reflexivity.
Qed.

End ApiFacts.

Lemma stats_on_empty_cache_witness :
  serve Sample.flaky GET_stats Sample.fresh_world
    = ({| status := 200; body := NoStatsBody false "No data available" |},
       Sample.fresh_world).
Proof.
  exact (proj1 (stats_on_empty_cache Sample.flaky Sample.fresh_world eq_refl)).
Defined.

Lemma profiles_nonpositive_min_followers_witness :
  exists age w',
    serve Sample.flaky (GET_profiles (Some "TRUE") (Some "-5")) Sample.serving_world
      = ({| status := 200;
            body :=
              ProfilesBody true
                [Sample.record_of Sample.nike; Sample.record_of Sample.nasa]
                (Some Sample.midnight) 2 age [] |}, w').
Proof.
  apply (profiles_nonpositive_min_followers Sample.flaky
           (Some "TRUE") (Some "-5") (-5) Sample.serving_world).
  - reflexivity.
  - lia.
Defined.

(** C5, as the specification states it, fails: a [min_followers] that is
    not a number is answered with status 500, though the cache holds three
    profiles. *)
Lemma malformed_min_followers_is_an_error :
  status (fst (serve Sample.flaky (GET_profiles None (Some "abc")) Sample.serving_world))
    = 500
  /\ profiles (cache Sample.serving_world) <> []
  /\ ~ answers_success Sample.flaky (GET_profiles None (Some "abc")) Sample.serving_world.
Proof.
  split; [reflexivity|]. split; [discriminate|].
  intros [H _]. vm_compute in H. discriminate.
Qed.

(** The conditions of the amended C5 on what is printed are needed: two
    records whose following counts can be printed each, but not their
    sum, make [GET /api/stats] answer with status 500, and so does
    [GET /] once the run counter is 10^4300. *)
Example totals_beyond_printing :
  Forall (fun p => printable (followers p) = true
                   /\ printable (following p) = true
                   /\ printable (posts p) = true)
         (profiles (cache Sample.crowded_world))
  /\ status (fst (serve Sample.flaky GET_stats Sample.crowded_world)) = 500
  /\ status (fst (serve Sample.flaky GET_index Sample.worn_world)) = 500.
Proof.
  split; [|split]; [repeat constructor | vm_compute; reflexivity ..].
Qed.

Lemma well_formed_requests_succeed_witness :
  answers_success Sample.flaky GET_stats Sample.serving_world
  /\ answers_success Sample.flaky GET_index Sample.serving_world
  /\ answers_success Sample.flaky (GET_profiles None (Some " 42 ")) Sample.serving_world
  /\ answers_success Sample.flaky (GET_profiles None (Some Sample.arabic_three))
                     Sample.serving_world
  /\ serve Sample.flaky (GET_profiles None (Some "12a")) Sample.serving_world
     = ({| status := 500; body := InternalServerError |}, Sample.serving_world).
Proof.
  split; [|split; [|split; [|split]]].
  - apply (proj1 (well_formed_requests_succeed Sample.flaky GET_stats
                    Sample.serving_world)).
    + exact I.
    + split; [repeat constructor | reflexivity].
  - apply (proj1 (well_formed_requests_succeed Sample.flaky GET_index
                    Sample.serving_world)).
    + exact I.
    + reflexivity.
  - apply (proj1 (well_formed_requests_succeed Sample.flaky
                    (GET_profiles None (Some " 42 ")) Sample.serving_world)).
    + exists 42. reflexivity.
    + exact I.
  - apply (proj1 (well_formed_requests_succeed Sample.flaky
                    (GET_profiles None (Some Sample.arabic_three))
                    Sample.serving_world)).
    + exists 3. reflexivity.
    + exact I.
  - apply (proj2 (well_formed_requests_succeed Sample.flaky
                    (GET_profiles None (Some "12a")) Sample.serving_world)
                 None (Some "12a") ValueError); reflexivity.
Defined.

(** ** Sorted records, from the refresh run to the readers *)
Section OrderFacts.

Variable env : Env.

Lemma age_world_frame (w : World) :
  cache (age_world w) = cache w /\ disk (age_world w) = disk w.
Proof. unfold age_world. destruct (last_update (cache w)); split; reflexivity. Qed.

Lemma load_world_frame (w : World) :
  cache (load_world w) = cache w /\ disk (load_world w) = disk w.
Proof.
  unfold load_world. destruct (disk w) as [| |d] eqn:D; try (split; [reflexivity | exact D]).
  destruct (snap_last_update d); split; simpl; auto.
Qed.

Lemma load_result_some (w : World) (d : Snapshot) :
  load_result env w = Some d ->
  disk w = Stored d
  /\ (exists ps, snap_profiles d = Some ps)
  /\ (exists t, snap_last_update d = LU_naive t).
Proof.
  unfold load_result. destruct (disk w) as [| |d0]; try discriminate.
  destruct (snap_last_update d0) as [| |t|t] eqn:U; try discriminate.
  destruct (_ <? _); try discriminate.
  destruct (snap_profiles d0) as [ps|] eqn:P; try discriminate.
  intros H. injection H as <-. eauto.
Qed.

Lemma jsonify_cases (b : Body) (w : World) :
  jsonify b w = (Ok b, w) \/ jsonify b w = (Raise ValueError, w).
Proof.
  destruct b; try (now left); unfold jsonify.
  - destruct (printable _); [now left | now right].
  - destruct (_ && _)%bool; [now left | now right].
Qed.

(** [GET /] leaves the state as it was. *)
Lemma index_world (w : World) : snd (index w) = w.
Proof.
  unfold index, bind, read_cache.
  match goal with
  | |- context [jsonify ?b ?w0] => destruct (jsonify_cases b w0) as [-> | ->]
  end; reflexivity.
Qed.

(** The two ways [index] ends. *)
Lemma index_cases (w : World) :
  index w = (Ok (IndexBody (List.length (profiles (cache w)))
                           (last_update (cache w)) (fetch_count (cache w))), w)
  \/ index w = (Raise ValueError, w).
Proof.
  unfold index, bind, read_cache. apply jsonify_cases.
Qed.

(** The statistics leave all but the division counter as it was. *)
Lemma get_stats_untouched (w : World) : untouched w (snd (get_stats w)).
Proof.
  unfold get_stats, bind, read_cache.
  destruct (profiles (cache w)) as [|x l]; [repeat split|].
  unfold compute_stats, bind, int_div.
  destruct (PyFloat.int_truediv _ _); [|repeat split].
  destruct (PyFloat.int_truediv _ _); [|repeat split].
  unfold ret.
  match goal with
  | |- context [jsonify ?b ?w0] => destruct (jsonify_cases b w0) as [-> | ->]
  end; repeat split.
Qed.

(** The three ways [get_stats] ends: no data, statistics, an exception. *)
Lemma get_stats_cases (w : World) :
  (profiles (cache w) = []
   /\ get_stats w = (Ok (NoStatsBody false "No data available"), w))
  \/ (exists st w',
        compute_stats (profiles (cache w)) w = (Ok st, w')
        /\ get_stats w = (Ok (StatsBody true st (last_update (cache w))), w'))
  \/ (exists e w', get_stats w = (Raise e, w')).
Proof.
  unfold get_stats, bind, read_cache.
  destruct (profiles (cache w)) as [|x l]; [left; split; reflexivity | right].
  destruct (compute_stats (x :: l) w) as [[st|e] w'].
  - destruct (jsonify_cases (StatsBody true st (last_update (cache w))) w')
      as [E|E]; rewrite E; [left | right]; eauto.
  - right. eauto.
Qed.

Lemma serve_world (r : Request) (w : World) :
  snd (serve env r w) = snd (view env r w).
Proof. unfold serve. destruct (view env r w) as [[b|e] w']; reflexivity. Qed.

(** Only a refresh changes the cache or its file. *)
Lemma view_frame (r : Request) (w : World) :
  r <> POST_refresh ->
  cache (snd (view env r w)) = cache w /\ disk (snd (view env r w)) = disk w.
Proof.
  intros N. destruct r as [| |v m| |]; unfold view.
  - rewrite index_world. split; reflexivity.
  - unfold health_check, bind, read_cache. rewrite get_cache_age_minutes_eq.
    apply age_world_frame.
  - destruct (min_followers_arg env m) as [n|e] eqn:E.
    + rewrite (get_profiles_eq env v m n w E). apply age_world_frame.
    + rewrite (get_profiles_raise env v m e w E). split; reflexivity.
  - contradiction.
  - destruct (get_stats_untouched w) as (C & D & _). split; assumption.
Qed.

Lemma after_refresh_sorted (fetched : list ProfileRecord * list FetchError)
      (w1 : World) :
  (forall d ps, disk w1 = Stored d -> snap_profiles d = Some ps -> sorted_desc ps) ->
  store_sorted (after_refresh env fetched w1).
Proof.
  intros H. unfold after_refresh, store_sorted. cbn.
  split; [apply sort_sorted|].
  unfold saved_disk. cbn. destruct (env_write env (writes w1)); intros d ps E P.
  - injection E as <-. simpl in P. injection P as <-. apply sort_sorted.
  - eapply H; eassumption.
  - discriminate.
Qed.

Lemma update_cache_data_sorted (usernames : list string) (w : World) :
  (forall d ps, disk w = Stored d -> snap_profiles d = Some ps -> sorted_desc ps) ->
  store_sorted (snd (update_cache_data_over env usernames w)).
Proof.
  intros H.
  destruct (fetch_all_spec env usernames ([], []) w) as (outs & w1 & E & _ & S).
  rewrite (update_cache_data_over_eq env usernames w w1 _ E). cbn [snd].
  apply after_refresh_sorted. destruct S as (_ & D & _). rewrite D. exact H.
Qed.

Lemma serve_sorted (r : Request) (w : World) :
  store_sorted w -> store_sorted (snd (serve env r w)).
Proof.
  intros [C D]. rewrite serve_world.
  destruct r as [| |v m| |];
    try (match goal with
         | |- store_sorted (snd (view env ?q w)) =>
             destruct (view_frame q w ltac:(discriminate)) as [Ec Ed]
         end;
         unfold store_sorted; rewrite Ec, Ed; split; assumption).
  unfold view, refresh_profiles, bind, update_cache_data.
  pose proof (update_cache_data_sorted USERNAMES w D) as U.
  destruct (update_cache_data_over env USERNAMES w) as [[[ps es]|e] w']; exact U.
Qed.

Lemma main_sorted (w : World) :
  cache w = initial_cache ->
  (forall d ps, disk w = Stored d -> snap_profiles d = Some ps -> sorted_desc ps) ->
  store_sorted (snd (main env w)).
Proof.
  intros C D. unfold main. unfold bind at 1. rewrite load_cache_eq.
  destruct (load_world_frame w) as [Lc Ld].
  destruct (load_result env w) as [d|] eqn:L.
  - apply load_result_some in L. destruct L as (Dk & [ps P] & _).
    unfold modify_cache, bind, read_cache, write_cache.
    rewrite get_cache_age_minutes_eq. cbn [snd].
    destruct (age_world_frame (with_cache (cache_update d (cache (load_world w)))
                                          (load_world w))) as [Ac Ad].
    unfold ret. cbn [snd]. unfold store_sorted. rewrite Ac, Ad.
    cbn [cache disk with_cache].
    rewrite Ld. split; [|exact D].
    unfold cache_update. cbn [profiles]. rewrite P. apply (D d ps Dk P).
  - unfold bind, update_cache_data.
    assert (D' : forall d ps, disk (load_world w) = Stored d ->
                              snap_profiles d = Some ps -> sorted_desc ps)
      by (rewrite Ld; exact D).
    pose proof (update_cache_data_sorted USERNAMES (load_world w) D') as U.
    destruct (update_cache_data_over env USERNAMES (load_world w))
      as [[[ps es]|e] w']; exact U.
Qed.

Lemma reachable_sorted (w : World) :
  reachable env w -> store_sorted w.
Proof.
  induction 1 as [w C D | ev w R IH].
  - unfold store_sorted. rewrite C, D. split; [constructor | discriminate].
  - destruct ev as [|r]; unfold step.
    + apply main_sorted; [reflexivity | exact (proj2 IH)].
    + apply serve_sorted, IH.
Qed.

Lemma select_sorted (v : bool) (n : Z) (l : list ProfileRecord) :
  sorted_desc l -> sorted_desc (select v n l).
Proof.
  intros S. unfold select.
  destruct v; destruct (0 <? n); auto using filter_sorted.
Qed.

(** What a reader gets as data is sorted as soon as the cache is. *)
Lemma served_data_sorted (r : Request) (w : World) (d : list ProfileRecord) :
  sorted_desc (profiles (cache w)) ->
  data_of (body (fst (serve env r w))) = Some d ->
  sorted_desc d.
Proof.
  intros S. unfold serve, view. destruct r as [| |v m| |].
  - destruct (index_cases w) as [-> | ->]; discriminate.
  - unfold health_check, bind, read_cache. rewrite get_cache_age_minutes_eq.
    discriminate.
  - destruct (min_followers_arg env m) as [n|e] eqn:E.
    + rewrite (get_profiles_eq env v m n w E). cbn.
      intros H. injection H as <-. now apply select_sorted.
    + rewrite (get_profiles_raise env v m e w E). discriminate.
  - destruct (refresh_profiles_eq env w) as (f & w1 & _ & _ & E). rewrite E. cbn.
    intros H. injection H as <-. apply sort_sorted.
  - destruct (get_stats_cases w) as [[_ E]|[(st & w' & _ & E)|(e & w' & E)]];
      rewrite E; discriminate.
Qed.

(** The five most followed profiles of the statistics come sorted. *)
Lemma compute_stats_top_5 (l : list ProfileRecord) (w w' : World) (st : Stats) :
  compute_stats l w = (Ok st, w') ->
  pairs_sorted_desc (top_5_profiles st).
Proof.
  unfold compute_stats, bind, int_div, ret.
  pose proof (firstn_sorted 5 _ (sort_sorted l)) as S.
  apply pairs_of_sorted in S. revert S.
  generalize (map (fun p => (username p, followers p))
                  (firstn 5 (sort_by_followers_desc l))).
  intros top S.
  destruct (PyFloat.int_truediv _ _); [|discriminate].
  destruct (PyFloat.int_truediv _ _); [|discriminate].
  intros H. injection H as <- _. exact S.
Qed.

Lemma served_top_5_sorted (w : World) (ok : bool) (st : Stats)
      (u : option datetime) :
  body (fst (serve env GET_stats w)) = StatsBody ok st u ->
  pairs_sorted_desc (top_5_profiles st).
Proof.
  unfold serve, view.
  destruct (get_stats_cases w) as [[_ E]|[(st' & w' & C & E)|(e & w' & E)]];
    rewrite E; try discriminate.
  cbn [fst body]. intros H. injection H as _ <- _.
  apply (compute_stats_top_5 _ _ _ _ C).
Qed.

(** C4.  A refresh run returns, and installs in the cache, the records it
    fetched sorted by followers, most followed first, records with as many
    followers staying in the order of the fetch.  In every state the
    program reaches, the records of the cache are sorted so, and so are the
    data of every answer that carries records and the five profiles the
    statistics list. *)
Theorem records_sorted_by_followers :
  (forall usernames w,
      exists fetched w1 w',
        fetch_all env usernames ([], []) w = (Ok fetched, w1)
        /\ update_cache_data_over env usernames w
           = (Ok (sort_by_followers_desc (fst fetched), snd fetched), w')
        /\ profiles (cache w') = sort_by_followers_desc (fst fetched)
        /\ sorted_desc (sort_by_followers_desc (fst fetched))
        /\ Permutation (sort_by_followers_desc (fst fetched)) (fst fetched)
        /\ forall k, with_followers k (sort_by_followers_desc (fst fetched))
                     = with_followers k (fst fetched))
  /\ (forall w,
        reachable env w ->
        sorted_desc (profiles (cache w))
        /\ (forall r d,
              data_of (body (fst (serve env r w))) = Some d -> sorted_desc d)
        /\ (forall ok st u,
              body (fst (serve env GET_stats w)) = StatsBody ok st u ->
              pairs_sorted_desc (top_5_profiles st))).
Proof.
  split.
  - intros usernames w.
    destruct (fetch_all_spec env usernames ([], []) w) as (outs & w1 & E & _ & _).
    eexists _, w1, _. split; [exact E|].
    split; [apply (update_cache_data_over_eq env usernames w w1 _ E)|].
    split; [reflexivity|]. split; [apply sort_sorted|].
    split; [apply sort_perm|]. intros k. apply sort_stable.
  - intros w R. pose proof (reachable_sorted w R) as [S _].
    split; [exact S|]. split.
    + intros r d. now apply served_data_sorted.
    + intros ok st u. apply served_top_5_sorted.
Qed.

End OrderFacts.

Lemma records_sorted_by_followers_witness :
  sorted_desc
    (profiles (cache (step Sample.flaky (Call POST_refresh)
                           (step Sample.flaky Boot Sample.fresh_world)))).
Proof.
  refine (proj1 (proj2 (records_sorted_by_followers Sample.flaky) _ _)).
  apply reach_step, reach_step, reach_fresh; reflexivity.
Defined.

Lemma profiles_min_followers_million_witness :
  exists age w',
    serve Sample.flaky (GET_profiles None (Some "1000000")) Sample.serving_world
      = ({| status := 200;
            body :=
              ProfilesBody true
                [Sample.record_of Sample.nike; Sample.record_of Sample.nasa]
                (Some Sample.midnight) 2 age [] |}, w').
Proof.
  destruct (profiles_min_followers_million Sample.flaky None Sample.serving_world)
    as (d & age & w' & E & -> & _).
  exists age, w'. exact E.
Defined.

(** * Further properties *)

(** ** Loading, saving and restarting *)
Section RestartFacts.

Variable env : Env.

(** X1.  [load_cache] never raises and changes neither the cache, nor the
    file, nor the count of calls to the source.  It returns nothing when
    the file is missing or cannot be parsed, when its timestamp is
    missing, empty, unparseable or carries a UTC offset, and when it has no
    list of profiles; what it returns is what the file holds. *)
Theorem load_cache_degrades (w : World) :
  exists r w',
    load_cache env w = (Ok r, w')
    /\ cache w' = cache w /\ disk w' = disk w /\ calls w' = calls w
    /\ (disk w = NoFile \/ disk w = Garbled -> r = None)
    /\ (forall d, disk w = Stored d ->
                  (snap_last_update d = LU_falsy
                   \/ snap_last_update d = LU_unparseable
                   \/ (exists t, snap_last_update d = LU_aware t)
                   \/ snap_profiles d = None) ->
                  r = None)
    /\ (forall d, r = Some d -> disk w = Stored d).
Proof.
  exists (load_result env w), (load_world w).
  split; [apply load_cache_eq|].
  destruct (load_world_frame w) as [C D].
  split; [exact C|]. split; [exact D|].
  split; [unfold load_world; destruct (disk w) as [| |d]; try reflexivity;
          destruct (snap_last_update d); reflexivity|].
  split; [|split].
  - unfold load_result. intros [H|H]; rewrite H; reflexivity.
  - intros d H X. unfold load_result. rewrite H.
    destruct X as [X|[X|[[t X]|X]]]; try (rewrite X; reflexivity).
    destruct (snap_last_update d); try reflexivity.
    destruct (_ <? _); [|reflexivity]. rewrite X. reflexivity.
  - intros d H. apply (load_result_some env w d H).
Qed.

Lemma cache_update_snapshot_of (c c0 : Cache) :
  last_update c <> None -> cache_update (snapshot_of c) c0 = c.
Proof.
  destruct c as [ps [t|] n es]; simpl; [reflexivity | contradiction].
Qed.

(** The start of a process whose file holds a fresh snapshot. *)
Lemma main_loads (w : World) (d : Snapshot) :
  load_result env w = Some d ->
  main env w
    = (Ok tt, age_world (with_cache (cache_update d (cache w)) (load_world w))).
Proof.
  intros L. unfold main. unfold bind at 1. rewrite load_cache_eq, L.
  unfold modify_cache, bind, read_cache, write_cache.
  rewrite get_cache_age_minutes_eq.
  destruct (load_world_frame w) as [-> _]. reflexivity.
Qed.

(** X2.  When the file holds the snapshot of a cache [c] saved less than
    30 minutes before the process starts, the start restores exactly [c],
    without a call to the source, a sleep or a write. *)
Theorem restart_restores_cache (w : World) (c : Cache) (t : datetime) :
  disk w = Stored (snapshot_of c) ->
  last_update c = Some t ->
  env_now env (ticks w) - t < timedelta_minutes CACHE_DURATION_MINUTES ->
  let w' := step env Boot w in
  cache w' = c /\ disk w' = disk w /\ calls w' = calls w
  /\ slept w' = slept w /\ writes w' = writes w.
Proof.
  intros D U F. unfold step.
  assert (L : load_result env (with_cache initial_cache w) = Some (snapshot_of c)).
  { unfold load_result. cbn [disk with_cache ticks]. rewrite D.
    cbn [snap_last_update snapshot_of]. rewrite U.
    apply Z.ltb_lt in F. rewrite F. reflexivity. }
  rewrite (main_loads _ _ L). cbn [snd].
  rewrite cache_update_snapshot_of by (rewrite U; discriminate).
  unfold age_world, load_world. cbn [cache with_cache disk]. rewrite D.
  cbn [snap_last_update snapshot_of]. rewrite U.
  repeat split. exact D.
Qed.

Lemma main_returns_timestamped (w : World) :
  exists w', main env w = (Ok tt, w') /\ last_update (cache w') <> None.
Proof.
  destruct (load_result env w) as [d|] eqn:L.
  - rewrite (main_loads w d L). eexists. split; [reflexivity|].
    destruct (load_result_some env w d L) as (_ & _ & [t T]).
    destruct (age_world_frame (with_cache (cache_update d (cache w)) (load_world w)))
      as [-> _].
    cbn [cache with_cache]. unfold cache_update. cbn [last_update]. rewrite T.
    discriminate.
  - unfold main. unfold bind at 1. rewrite load_cache_eq, L.
    unfold bind, update_cache_data.
    destruct (fetch_all_spec env USERNAMES ([], []) (load_world w))
      as (outs & w1 & E & _ & _).
    rewrite (update_cache_data_over_eq env USERNAMES _ w1 _ E).
    eexists. split; [reflexivity|]. cbn. discriminate.
Qed.

(** X3.  The startup block never raises and always leaves a cache with a
    timestamp, whatever the file holds. *)
Theorem main_leaves_timestamp (w : World) :
  exists w', main env w = (Ok tt, w') /\ last_update (cache w') <> None.
Proof. exact (main_returns_timestamped w). Qed.

End RestartFacts.

(** ** Calls to the source and time slept *)
Section PacingFacts.

Variable env : Env.

Lemma attempt_sleeps_shift (k : nat) :
  (1 <= k)%nat ->
  attempt_sleeps k ++ [RETRY_DELAY; 2] = 2 :: RETRY_DELAY :: attempt_sleeps k.
Proof.
  induction k as [|[|j] IH]; intros H; [lia | reflexivity |].
  change (attempt_sleeps (S (S j))) with (2 :: RETRY_DELAY :: attempt_sleeps (S j)).
  rewrite <- !app_comm_cons, IH by lia. reflexivity.
Qed.

Lemma attempt_sleeps_total (k : nat) :
  (1 <= k)%nat ->
  fold_right Z.add 0 (attempt_sleeps k) = 7 * Z.of_nat k - 5.
Proof.
  induction k as [|[|j] IH]; intros H; [lia | reflexivity |].
  change (attempt_sleeps (S (S j))) with (2 :: RETRY_DELAY :: attempt_sleeps (S j)).
  change (fold_right Z.add 0 (2 :: RETRY_DELAY :: attempt_sleeps (S j)))
    with (2 + (RETRY_DELAY + fold_right Z.add 0 (attempt_sleeps (S j)))).
  rewrite IH by lia. unfold RETRY_DELAY. lia.
Qed.

Lemma fetch_attempts (n : nat) :
  forall (u : string) (rc : nat) (w : World),
    (MAX_RETRIES - rc <= n)%nat ->
    exists k,
      (1 <= k <= Nat.max 1 (MAX_RETRIES - rc))%nat
      /\ calls (snd (fetch_profile_data env u rc w)) = (calls w + k)%nat
      /\ slept (snd (fetch_profile_data env u rc w)) = attempt_sleeps k ++ slept w.
Proof.
  assert (One : forall u rc w r w1,
             fetch_profile_data env u rc w = (r, w1) ->
             calls w1 = S (calls w) -> slept w1 = 2 :: slept w ->
             exists k,
               (1 <= k <= Nat.max 1 (MAX_RETRIES - rc))%nat
               /\ calls (snd (fetch_profile_data env u rc w)) = (calls w + k)%nat
               /\ slept (snd (fetch_profile_data env u rc w))
                  = attempt_sleeps k ++ slept w).
  { intros u rc w r w1 E C S. exists 1%nat. rewrite E. cbn [snd].
    split; [lia|]. split; [lia | exact S]. }
  assert (Ok1 : forall u rc w p,
             outcome env u w = Ok p ->
             exists k,
               (1 <= k <= Nat.max 1 (MAX_RETRIES - rc))%nat
               /\ calls (snd (fetch_profile_data env u rc w)) = (calls w + k)%nat
               /\ slept (snd (fetch_profile_data env u rc w))
                  = attempt_sleeps k ++ slept w).
  { intros u rc w p O.
    eapply One; [apply (fetch_success env u rc w p O) | |];
      unfold after_success, engagement_world;
      destruct (p_followers p =? 0); reflexivity. }
  induction n as [|n IH]; intros u rc w Hn;
    (destruct (outcome env u w) as [p|e] eqn:O; [now apply (Ok1 u rc w p)|]);
    destruct e;
    try (eapply One; [apply (fetch_other env u rc w _ O); reflexivity
                     | reflexivity | reflexivity]);
    try (eapply One; [apply (fetch_not_exist env u rc w _ O)
                     | reflexivity | reflexivity]).
  - eapply One; [apply (fetch_exhausted env u rc w _ O); lia
                | reflexivity | reflexivity].
  - destruct (lt_dec rc (MAX_RETRIES - 1)) as [L|L].
    + rewrite (fetch_retry env u rc w _ O L).
      destruct (IH u (rc + 1)%nat (with_sleep RETRY_DELAY (after_failure w)))
        as (k & K & C & Sl); [lia|].
      exists (S k). split; [lia|]. rewrite C, Sl. split; [simpl; lia|].
      cbn [slept with_sleep after_failure with_call attempt_world].
      change (RETRY_DELAY :: 2 :: slept w) with ([RETRY_DELAY; 2] ++ slept w).
      rewrite app_assoc, attempt_sleeps_shift by lia.
      destruct k; [lia | reflexivity].
    + eapply One; [apply (fetch_exhausted env u rc w _ O); lia
                  | reflexivity | reflexivity].
Qed.

Lemma fetch_pacing (u : string) (rc : nat) (w : World) :
  exists k,
    (1 <= k <= Nat.max 1 (MAX_RETRIES - rc))%nat
    /\ calls (snd (fetch_profile_data env u rc w)) = (calls w + k)%nat
    /\ slept (snd (fetch_profile_data env u rc w)) = attempt_sleeps k ++ slept w
    /\ seconds_slept (snd (fetch_profile_data env u rc w))
       = seconds_slept w + 7 * Z.of_nat k - 5.
Proof.
  destruct (fetch_attempts (MAX_RETRIES - rc) u rc w (le_n _)) as (k & K & C & S).
  exists k. split; [exact K|]. split; [exact C|]. split; [exact S|].
  unfold seconds_slept. rewrite S, fold_right_app.
  pose proof (attempt_sleeps_total k ltac:(lia)) as T. revert T.
  generalize (attempt_sleeps k), (fold_right Z.add 0 (slept w)). intros l a T.
  assert (G : fold_right Z.add a l = a + fold_right Z.add 0 l)
    by (clear; induction l as [|x l IH]; simpl; lia).
  lia.
Qed.

(** X4.  A call of [fetch_profile_data] makes at least one and at most
    [MAX_RETRIES] calls to the source (one only, once the retry count has
    reached [MAX_RETRIES - 1]); it sleeps 2 seconds before each of them
    and [RETRY_DELAY] seconds between two of them, and nothing else. *)
Theorem fetch_is_paced (u : string) (rc : nat) (w : World) :
  exists k,
    (1 <= k <= Nat.max 1 (MAX_RETRIES - rc))%nat
    /\ calls (snd (fetch_profile_data env u rc w)) = (calls w + k)%nat
    /\ slept (snd (fetch_profile_data env u rc w)) = attempt_sleeps k ++ slept w
    /\ seconds_slept (snd (fetch_profile_data env u rc w))
       = seconds_slept w + 7 * Z.of_nat k - 5.
Proof. exact (fetch_pacing u rc w). Qed.

Lemma fetch_all_pacing (usernames : list string) :
  forall acc w,
    let w' := snd (fetch_all env usernames acc w) in
    (calls w + List.length usernames <= calls w'
     <= calls w + MAX_RETRIES * List.length usernames)%nat
    /\ seconds_slept w + 2 * Z.of_nat (List.length usernames)
       <= seconds_slept w'
       <= seconds_slept w + 16 * Z.of_nat (List.length usernames).
Proof.
  induction usernames as [|u rest IH]; intros acc w.
  - simpl. lia.
  - simpl fetch_all. unfold bind.
    destruct (fetch_pacing u 0%nat w) as (k & K & C & _ & T).
    destruct (fetch_profile_data_returns env MAX_RETRIES u 0%nat w)
      as (r & w1 & E & _ & _); [lia|].
    rewrite E in *. cbn [snd] in C, T.
    specialize (IH (collect u r acc) w1). cbv zeta in IH.
    cbv zeta. change (List.length (u :: rest)) with (S (List.length rest)).
    unfold MAX_RETRIES in *. simpl Nat.max in K. lia.
Qed.

(** X5.  A refresh run over [n] usernames makes between [n] and
    [MAX_RETRIES * n] calls to the source and sleeps between [2 n] and
    [16 n] seconds. *)
Theorem refresh_is_paced (usernames : list string) (w : World) :
  let w' := snd (update_cache_data_over env usernames w) in
  (calls w + List.length usernames <= calls w'
   <= calls w + MAX_RETRIES * List.length usernames)%nat
  /\ seconds_slept w + 2 * Z.of_nat (List.length usernames)
     <= seconds_slept w'
     <= seconds_slept w + 16 * Z.of_nat (List.length usernames).
Proof.
  pose proof (fetch_all_pacing usernames ([], []) w) as P.
  destruct (fetch_all_spec env usernames ([], []) w) as (outs & w1 & E & _ & _).
  rewrite E in P. cbn [snd] in P.
  rewrite (update_cache_data_over_eq env usernames w w1 _ E).
  exact P.
Qed.

End PacingFacts.

(** ** The cache and its file along the life of the program *)
Section MirrorFacts.

Variable env : Env.

Lemma refresh_outcome_on_disk (usernames : list string) (w : World) :
  let w' := snd (update_cache_data_over env usernames w) in
  writes w' = S (writes w)
  /\ match env_write env (writes w) with
     | Written => disk w' = Stored (snapshot_of (cache w'))
     | WriteRefused => disk w' = disk w
     | WriteInterrupted => disk w' = Garbled
     end
  /\ fetch_count (cache w') = fetch_count (cache w) + 1
  /\ exists k, last_update (cache w') = Some (env_now env k).
Proof.
  destruct (fetch_all_spec env usernames ([], []) w)
    as (outs & w1 & E & _ & (C & D & W)).
  rewrite (update_cache_data_over_eq env usernames w w1 _ E). cbn [snd].
  unfold after_refresh, saved_disk. cbn. rewrite W, C, D.
  split; [reflexivity|]. split; [destruct (env_write env (writes w)); reflexivity|].
  split; [reflexivity|]. eexists. reflexivity.
Qed.

(** X6.  A refresh run makes exactly one attempt to write the file.  When
    the write succeeds the file holds the snapshot of the new cache; when
    [open] fails the file is the one of before the run; when the dump is
    interrupted the file is left unparseable.  The run counter of the
    cache goes up by one and the timestamp is the time read after the
    loop. *)
Theorem refresh_persists (usernames : list string) (w : World) :
  let w' := snd (update_cache_data_over env usernames w) in
  writes w' = S (writes w)
  /\ match env_write env (writes w) with
     | Written => disk w' = Stored (snapshot_of (cache w'))
     | WriteRefused => disk w' = disk w
     | WriteInterrupted => disk w' = Garbled
     end
  /\ fetch_count (cache w') = fetch_count (cache w) + 1
  /\ exists k, last_update (cache w') = Some (env_now env k).
Proof. exact (refresh_outcome_on_disk usernames w). Qed.

(** What a refresh run leaves in the file, in short. *)
Lemma refresh_disk (usernames : list string) (w : World) :
  let w' := snd (update_cache_data_over env usernames w) in
  disk w' = Stored (snapshot_of (cache w')) \/ disk w' = disk w \/ disk w' = Garbled.
Proof.
  destruct (refresh_outcome_on_disk usernames w) as (_ & H & _). cbv zeta.
  destruct (env_write env (writes w)); auto.
Qed.

Lemma refresh_world (w : World) :
  snd (refresh_profiles env w) = snd (update_cache_data_over env USERNAMES w).
Proof.
  unfold refresh_profiles, update_cache_data, bind.
  destruct (update_cache_data_over env USERNAMES w) as [[[ps es]|e] w']; reflexivity.
Qed.

Lemma main_refreshes (w : World) :
  load_result env w = None ->
  snd (main env w) = snd (update_cache_data_over env USERNAMES (load_world w)).
Proof.
  intros L. unfold main. unfold bind at 1. rewrite load_cache_eq, L.
  unfold bind, update_cache_data.
  destruct (update_cache_data_over env USERNAMES (load_world w))
    as [[[ps es]|e] w']; reflexivity.
Qed.

(** A property of caches that every refresh run over [USERNAMES]
    establishes, from the initial cache or from a cache that has it, and
    that implies a timestamp, holds of the cache in every state the
    program reaches unless the cache is still the initial one; the file
    then holds nothing but snapshots of such caches. *)
Lemma reachable_cache_invariant (I : Cache -> Prop) :
  (forall c, I c -> last_update c <> None) ->
  (forall w, cache w = initial_cache \/ I (cache w) ->
             I (cache (snd (update_cache_data_over env USERNAMES w)))) ->
  forall w,
    reachable env w ->
    (cache w = initial_cache \/ I (cache w))
    /\ (forall d, disk w = Stored d -> exists c, d = snapshot_of c /\ I c).
Proof.
  intros T R w H.
  assert (Run : forall w0,
             (cache w0 = initial_cache \/ I (cache w0)) ->
             (forall d, disk w0 = Stored d -> exists c, d = snapshot_of c /\ I c) ->
             let w' := snd (update_cache_data_over env USERNAMES w0) in
             (cache w' = initial_cache \/ I (cache w'))
             /\ (forall d, disk w' = Stored d -> exists c, d = snapshot_of c /\ I c)).
  { intros w0 C D. cbv zeta. pose proof (R w0 C) as N.
    split; [now right|].
    destruct (refresh_disk USERNAMES w0) as [X|[X|X]]; intros d Y; rewrite X in Y.
    - injection Y as <-. eauto.
    - now apply D.
    - discriminate. }
  induction H as [w C D | ev w H [IC ID]].
  - split; [now left|]. rewrite D. discriminate.
  - destruct ev as [|r]; unfold step.
    + set (w0 := with_cache initial_cache w).
      destruct (load_world_frame w0) as [Lc Ld].
      destruct (load_result env w0) as [d|] eqn:L.
      * rewrite (main_loads env w0 d L). cbn [snd].
        destruct (load_result_some env w0 d L) as (Dk & _ & _).
        destruct (ID d Dk) as (c & -> & Ic).
        destruct (age_world_frame
                    (with_cache (cache_update (snapshot_of c) (cache w0))
                                (load_world w0))) as [-> ->].
        cbn [cache disk with_cache]. rewrite Ld.
        rewrite (cache_update_snapshot_of c _ (T c Ic)).
        split; [now right | exact ID].
      * rewrite (main_refreshes w0 L). apply Run.
        -- left. rewrite Lc. reflexivity.
        -- rewrite Ld. exact ID.
    + rewrite (serve_world env r w).
      destruct r as [| |v m| |];
        try (match goal with
             | |- context [view env ?q w] =>
                 destruct (view_frame env q w ltac:(discriminate)) as [-> ->]
             end; split; assumption).
      change (view env POST_refresh w) with (refresh_profiles env w).
      rewrite (refresh_world w). now apply Run.
Qed.

Lemma refresh_populates (w : World) :
  cache w = initial_cache \/ populated (cache w) ->
  populated (cache (snd (update_cache_data_over env USERNAMES w))).
Proof.
  intros H.
  destruct (fetch_all_spec env USERNAMES ([], []) w)
    as (outs & w1 & E & F & (C & _ & _)).
  rewrite (update_cache_data_over_eq env USERNAMES w w1 _ E). cbn [snd].
  unfold after_refresh, populated. cbn. rewrite C.
  split; [|split].
  - rewrite sort_length, gots_fails_length. symmetry. apply (Forall2_length F).
  - discriminate.
  - destruct H as [->|(_ & _ & H)]; [simpl; lia | lia].
Qed.

Lemma reachable_populated (w : World) :
  reachable env w ->
  (cache w = initial_cache \/ populated (cache w))
  /\ (forall d, disk w = Stored d -> exists c, d = snapshot_of c /\ populated c)
  /\ populated (cache (step env Boot w)).
Proof.
  intros H.
  pose proof (reachable_cache_invariant populated
                (fun c P => proj1 (proj2 P)) refresh_populates) as Inv.
  destruct (Inv w H) as [C D]. split; [exact C|]. split; [exact D|].
  destruct (Inv _ (reach_step env Boot w H)) as [[C'|C'] _]; [|exact C'].
  destruct (main_returns_timestamped env (with_cache initial_cache w)) as (w' & E & T).
  unfold step in C'. rewrite E in C'. cbn [snd] in C'. rewrite C' in T.
  now contradiction T.
Qed.

(** X7.  In every state the program reaches, the cache is either the
    initial, empty one, or a cache in which the records and the errors
    together are as many as the usernames tracked, with a timestamp and a
    run counter of at least one; the file holds nothing but the snapshot
    of such a cache; and after a start of the process the cache is never
    the empty one. *)
Theorem reachable_cache_populated (w : World) :
  reachable env w ->
  (cache w = initial_cache \/ populated (cache w))
  /\ (forall d, disk w = Stored d -> exists c, d = snapshot_of c /\ populated c)
  /\ populated (cache (step env Boot w)).
Proof. exact (reachable_populated w). Qed.

(** X8.  As long as every write succeeds, the file mirrors the cache: in
    every state the program reaches, either nothing has run yet (initial
    cache, no file) or the file holds exactly the snapshot of the cache
    in memory. *)
Theorem file_mirrors_cache (w : World) :
  (forall k, env_write env k = Written) ->
  reachable env w ->
  (cache w = initial_cache /\ disk w = NoFile)
  \/ (disk w = Stored (snapshot_of (cache w)) /\ last_update (cache w) <> None).
Proof.
  intros Wr H.
  assert (Run : forall w0,
             let w' := snd (update_cache_data_over env USERNAMES w0) in
             disk w' = Stored (snapshot_of (cache w'))
             /\ last_update (cache w') <> None).
  { intros w0. destruct (refresh_outcome_on_disk USERNAMES w0) as (_ & P & _ & [k K]).
    cbv zeta in *. rewrite Wr in P. split; [exact P|]. rewrite K. discriminate. }
  induction H as [w C D | ev w H IH].
  - now left.
  - destruct ev as [|r]; unfold step.
    + right. set (w0 := with_cache initial_cache w).
      destruct (load_world_frame w0) as [Lc Ld].
      destruct (load_result env w0) as [d|] eqn:L.
      * rewrite (main_loads env w0 d L). cbn [snd].
        destruct (load_result_some env w0 d L) as (Dk & _ & _).
        destruct (age_world_frame
                    (with_cache (cache_update d (cache w0)) (load_world w0)))
          as [-> ->].
        cbn [cache disk with_cache]. rewrite Ld.
        unfold w0 in *. cbn [disk with_cache] in *.
        destruct IH as [[_ N]|[S T]]; [rewrite N in Dk; discriminate|].
        rewrite S in Dk. injection Dk as <-.
        rewrite (cache_update_snapshot_of _ _ T). split; assumption.
      * rewrite (main_refreshes w0 L). apply Run.
    + rewrite (serve_world env r w).
      destruct r as [| |v m| |];
        try (match goal with
             | |- context [view env ?q w] =>
                 destruct (view_frame env q w ltac:(discriminate)) as [-> ->]
             end; exact IH).
      right. change (view env POST_refresh w) with (refresh_profiles env w).
      rewrite (refresh_world w). apply Run.
Qed.

End MirrorFacts.

(** ** What the records and the errors of a run look like *)
Section ShapeFacts.

Variable env : Env.









End ShapeFacts.

(** ** More on the HTTP API *)
Section MoreApiFacts.

Variable env : Env.

Lemma age_world_untouched (w : World) : untouched w (age_world w).
Proof.
  unfold age_world, untouched. destruct (last_update (cache w)); repeat split.
Qed.

Lemma view_untouched (r : Request) (w : World) :
  r <> POST_refresh -> untouched w (snd (view env r w)).
Proof.
  intros N. destruct r as [| |v m| |]; unfold view.
  - rewrite index_world. repeat split.
  - unfold health_check, bind, read_cache. rewrite get_cache_age_minutes_eq.
    apply age_world_untouched.
  - destruct (min_followers_arg env m) as [n|e] eqn:E.
    + rewrite (get_profiles_eq env v m n w E). apply age_world_untouched.
    + rewrite (get_profiles_raise env v m e w E). repeat split.
  - contradiction.
  - apply get_stats_untouched.
Qed.

(** X10.  The four [GET] routes only read: they leave the cache and its
    file as they are, make no call to the source, no write and no sleep.
    What they answer as records, errors and success flag depends on the
    cache alone, not on the clock, the source or the disk: under any
    other source, clock and write outcomes the answer is the same, and
    records older than 30 minutes are served like fresh ones. *)
Theorem get_routes_only_read (r : Request) (w : World) :
  r <> POST_refresh ->
  untouched w (snd (serve env r w))
  /\ forall source clock writes,
      let env' := {| env_from_username := source;
                     env_now := clock;
                     env_write := writes;
                     env_int := env_int env |} in
      data_of (body (fst (serve env' r w))) = data_of (body (fst (serve env r w)))
      /\ errors_of (body (fst (serve env' r w))) = errors_of (body (fst (serve env r w)))
      /\ success_of (body (fst (serve env' r w))) = success_of (body (fst (serve env r w)))
      /\ status (fst (serve env' r w)) = status (fst (serve env r w)).
Proof.
  intros N. split; [rewrite serve_world; now apply view_untouched|].
  intros source clock writes env'. unfold serve, view. destruct r as [| |v m| |].
  - repeat split.
  - unfold health_check, bind, read_cache.
    rewrite !get_cache_age_minutes_eq. repeat split.
  - assert (A : min_followers_arg env' m = min_followers_arg env m) by reflexivity.
    destruct (min_followers_arg env m) as [n|e] eqn:E.
    + rewrite (get_profiles_eq env v m n w E), (get_profiles_eq env' v m n w A).
      repeat split.
    + rewrite (get_profiles_raise env v m e w E), (get_profiles_raise env' v m e w A).
      repeat split.
  - contradiction.
  - repeat split.
Qed.

(** X11.  [GET /api/profiles] with a [min_followers] that reads as the
    integer [n]: the answer has status 200, its [total] is the number of
    records it lists, and it lists, in the order of the cache, exactly the
    records of the cache that have at least [n] followers when [n] is
    positive, and that are verified when [verified] is [true] in any
    letter case. *)
Theorem profiles_filter_spec (verified m : option string) (n : Z) (w : World) :
  min_followers_arg env m = Ok n ->
  exists d age w',
    serve env (GET_profiles verified m) w
      = ({| status := 200;
            body := ProfilesBody true d (last_update (cache w)) (List.length d)
                                 age (errors (cache w)) |}, w')
    /\ d = filter (fun r => (negb (verified_flag verified) || isVerified r)
                             && (negb (0 <? n) || (n <=? followers r)))
                  (profiles (cache w))
    /\ (forall r, In r d <->
                  In r (profiles (cache w))
                  /\ (0 < n -> n <= followers r)
                  /\ (verified_flag verified = true -> isVerified r = true)).
Proof.
  intros H.
  assert (E : select (verified_flag verified) n (profiles (cache w))
              = filter (fun r => (negb (verified_flag verified) || isVerified r)
                                 && (negb (0 <? n) || (n <=? followers r)))
                       (profiles (cache w))).
  { unfold select. destruct (verified_flag verified), (0 <? n); simpl.
    - apply filter_filter.
    - apply filter_ext. intros r. now rewrite andb_true_r.
    - reflexivity.
    - symmetry. apply filter_true. }
  eexists _, _, _. split; [|split].
  - unfold serve, view. rewrite (get_profiles_eq env verified m n w H). reflexivity.
  - exact E.
  - intros r. rewrite E, filter_In. clear E.
    destruct (verified_flag verified); destruct (0 <? n) eqn:P;
      [apply Z.ltb_lt in P | apply Z.ltb_ge in P
       | apply Z.ltb_lt in P | apply Z.ltb_ge in P];
      cbn [negb orb]; rewrite ?andb_true_iff, ?andb_true_r, ?Z.leb_le;
      intuition (try lia; try discriminate).
Qed.

End MoreApiFacts.

(** ** Refresh, then read *)
Section RefreshApiFacts.

Variable env : Env.

(** X12.  [POST /api/refresh] is answered with status 200 and success;
    the counts of succeeded and failed fetches it reports are the lengths
    of the records and errors it lists and add up to the number of
    usernames requested; a [GET /api/profiles] without filter that comes
    next lists the same records, the same errors and the same timestamp. *)
Theorem refresh_then_profiles (w : World) :
  exists ps t es w',
    serve env POST_refresh w
      = ({| status := 200;
            body := RefreshBody true ps (Some t) es
                                (List.length ps) (List.length es)
                                (List.length USERNAMES) |}, w')
    /\ (List.length ps + List.length es = List.length USERNAMES)%nat
    /\ exists age w'',
        serve env (GET_profiles None None) w'
          = ({| status := 200;
                body := ProfilesBody true ps (Some t) (List.length ps) age es |},
             w'').
Proof.
  destruct (fetch_all_spec env USERNAMES ([], []) w) as (outs & w1 & E & F & _).
  destruct (refresh_profiles_eq env w) as (f & w1' & E' & _ & R).
  rewrite E in E'. injection E' as <- <-.
  eexists _, _, _, _. split; [|split].
  - unfold serve, view. rewrite R. reflexivity.
  - cbn [fst snd]. rewrite sort_length, gots_fails_length.
    symmetry. apply (Forall2_length F).
  - eexists _, _. unfold serve, view.
    rewrite (get_profiles_eq env None None 0 _ eq_refl). reflexivity.
Qed.

End RefreshApiFacts.

(** ** Values [int] refuses *)
Section LiteralFacts.

Lemma lstrip_keeps (c : ascii) (l : list ascii) :
  In c l -> PyStr.is_space c = false -> In c (PyStr.lstrip l).
Proof.
  intros I N. induction l as [|x l IH]; [contradiction|].
  simpl. destruct (PyStr.is_space x) eqn:X; [|exact I].
  destruct I as [->|I]; [congruence | now apply IH].
Qed.

Lemma strip_keeps (c : ascii) (l : list ascii) :
  In c l -> PyStr.is_space c = false -> In c (PyStr.strip l).
Proof.
  intros I N. unfold PyStr.strip.
  apply in_rev. rewrite rev_involutive. apply lstrip_keeps; [|exact N].
  apply in_rev. rewrite rev_involutive. now apply lstrip_keeps.
Qed.

Lemma digits_chars (l : list ascii) :
  forall b acc count r,
    PyStr.digits l b acc count = Some r ->
    forall c, In c l -> PyStr.digit_of c <> None \/ c = "_"%char.
Proof.
  induction l as [|x l IH]; intros b acc count r H c I; [contradiction|].
  simpl in H. destruct I as [<-|I].
  - destruct (PyStr.digit_of x); [left; discriminate|].
    destruct (Ascii.eqb x "_") eqn:U; [|discriminate].
    right. now apply Ascii.eqb_eq.
  - destruct (PyStr.digit_of x).
    + eapply IH; eassumption.
    + destruct (Ascii.eqb x "_" && b)%bool; [|discriminate].
      eapply IH; eassumption.
Qed.

(** What [int] accepts is made of digits, underscores, signs and white
    space only. *)
Lemma to_int_chars (s0 : string) (n : Z) :
  PyStr.to_int s0 = Ok n ->
  forall c, In c (list_ascii_of_string s0) -> int_char c = true.
Proof.
  intros H c I. destruct (int_char c) eqn:X; [reflexivity | exfalso].
  unfold int_char in X. destruct (PyStr.digit_of c) eqn:Dg; [discriminate|].
  apply orb_false_iff in X. destruct X as [X Sp].
  apply orb_false_iff in X. destruct X as [X Mi].
  apply orb_false_iff in X. destruct X as [Un Pl].
  pose proof (strip_keeps c _ I Sp) as B.
  unfold PyStr.to_int in H.
  destruct (PyStr.strip (list_ascii_of_string s0)) as [|x body]; [contradiction|].
  assert (G : forall ds, In c ds ->
                match PyStr.digits ds false 0 0 with
                | Some (v, count) =>
                    if Nat.leb count PyStr.int_max_str_digits
                    then Ok (if true then - v else v) else Raise ValueError
                | None => Raise ValueError
                end <> Ok n
                /\ match PyStr.digits ds false 0 0 with
                   | Some (v, count) =>
                       if Nat.leb count PyStr.int_max_str_digits
                       then Ok (if false then - v else v) else Raise ValueError
                   | None => Raise ValueError
                   end <> Ok n).
  { intros ds Ic.
    destruct (PyStr.digits ds false 0 0) as [[v k]|] eqn:D;
      [|split; discriminate].
    destruct (digits_chars ds _ _ _ _ D c Ic) as [Y|Y]; [congruence|].
    subst c. discriminate. }
  destruct (Ascii.eqb x "-") eqn:Xm.
  - destruct B as [->|B]; [congruence|]. now apply (proj1 (G body B)).
  - destruct (Ascii.eqb x "+") eqn:Xp.
    + destruct B as [->|B]; [congruence|]. now apply (proj2 (G body B)).
    + now apply (proj2 (G (x :: body) B)).
Qed.

(** On an ASCII string the reading is that of [PyStr.to_int], whatever
    the environment. *)
Lemma py_int_ascii (env : Env) (v : string) :
  PyStr.is_ascii v = true -> py_int env v = PyStr.to_int v.
Proof.
  intros A. unfold py_int. now rewrite A.
Qed.


(** X13.  An ASCII [min_followers] value with a character that is
    neither a digit, an underscore, a sign nor white space is answered
    with status 500 and no JSON body, whatever the cache holds, and the
    state is left as it was. *)
Theorem malformed_min_followers (env : Env) (verified : option string)
        (v : string) (c : ascii) (w : World) :
  PyStr.is_ascii v = true ->
  In c (list_ascii_of_string v) ->
  int_char c = false ->
  serve env (GET_profiles verified (Some v)) w
    = ({| status := 500; body := InternalServerError |}, w).
Proof.
  intros A I X. unfold serve, view.
  assert (P : min_followers_arg env (Some v) = PyStr.to_int v)
    by exact (py_int_ascii env v A).
  destruct (PyStr.to_int v) as [n|e] eqn:E.
  - rewrite (to_int_chars v n E c I) in X. discriminate.
  - rewrite (get_profiles_raise env verified (Some v) e w P). reflexivity.
Qed.


End LiteralFacts.

(** ** The statistics *)
Section StatsFacts.

Variable env : Env.

Lemma skipn_In (n : nat) (l : list ProfileRecord) (x : ProfileRecord) :
  In x (skipn n l) -> In x l.
Proof.
  intros H. rewrite <- (firstn_skipn n l). apply in_or_app. now right.
Qed.

(** In a sorted list no record past the first [n] has more followers than
    one of the first [n]. *)
Lemma sorted_firstn_skipn (n : nat) (l : list ProfileRecord) :
  sorted_desc l ->
  forall a b, In a (firstn n l) -> In b (skipn n l) -> followers b <= followers a.
Proof.
  unfold sorted_desc. intros S. revert n.
  induction S as [|x l S IH F]; intros [|n] a b A B; simpl in *; try contradiction.
  destruct A as [<-|A].
  - rewrite Forall_forall in F. apply F. eapply skipn_In. exact B.
  - eapply IH; eassumption.
Qed.

(** Sorting a sorted list changes nothing. *)
Lemma sort_sorted_id (l : list ProfileRecord) :
  sorted_desc l -> sort_by_followers_desc l = l.
Proof.
  unfold sorted_desc. induction 1 as [|x l S IH F]; [reflexivity|].
  simpl. rewrite IH. destruct l as [|y r]; [reflexivity|].
  simpl. inversion F as [|? ? Fy _]; subst.
  replace (followers x <? followers y) with false; [reflexivity|].
  symmetry. apply Z.ltb_ge. exact Fy.
Qed.

Lemma compute_stats_value (l : list ProfileRecord) (w w' : World) (st : Stats) :
  compute_stats l w = (Ok st, w') ->
  total_profiles st = List.length l
  /\ verified_profiles st = List.length (filter isVerified l)
  /\ total_followers st = sum_Z (map followers l)
  /\ total_following st = sum_Z (map following l)
  /\ total_posts st = sum_Z (map posts l)
  /\ top_5_profiles st = map headline (firstn 5 (sort_by_followers_desc l)).
Proof.
  unfold compute_stats, bind, int_div, ret.
  change (fun p : ProfileRecord => (username p, followers p)) with headline.
  generalize (map headline (firstn 5 (sort_by_followers_desc l))). intros top.
  destruct (PyFloat.int_truediv _ _); [|discriminate].
  destruct (PyFloat.int_truediv _ _); [|discriminate].
  intros H. injection H as <- _. repeat split.
Qed.

(** X15.  With at least one profile in the cache, fewer than 2^1000 of
    them, and follower, following and post counts below 2^1000 (so that
    the averages are doubles and the totals can be printed),
    [GET /api/stats] answers with status 200 and success, leaves the
    cache alone, counts every cached profile, counts no more verified
    profiles than profiles, and lists as top profiles [min(5, n)] of
    them, sorted by followers, such that no cached profile left out has
    more followers than one that is listed. *)
Theorem stats_summary (w : World) :
  profiles (cache w) <> [] ->
  stats_fit (profiles (cache w)) ->
  exists st w',
    serve env GET_stats w
      = ({| status := 200; body := StatsBody true st (last_update (cache w)) |}, w')
    /\ cache w' = cache w
    /\ total_profiles st = List.length (profiles (cache w))
    /\ (verified_profiles st <= total_profiles st)%nat
    /\ List.length (top_5_profiles st)
       = Nat.min 5 (List.length (profiles (cache w)))
    /\ pairs_sorted_desc (top_5_profiles st)
    /\ (forall p, In p (profiles (cache w)) ->
                  In (headline p) (top_5_profiles st)
                  \/ forall q, In q (top_5_profiles st) -> followers p <= snd q).
Proof.
  intros N C.
  destruct (get_stats_ok w N C) as (st & E & G).
  destruct (compute_stats_value _ _ _ _ E) as (Tp & Vp & _ & _ & _ & T5).
  exists st, (with_division (with_division w)).
  split; [|split; [reflexivity|]].
  { unfold serve, view. rewrite G. reflexivity. }
  split; [exact Tp|]. split; [rewrite Vp, Tp; apply filter_length_le|].
  split; [rewrite T5, length_map, length_firstn, sort_length; reflexivity|].
  split; [rewrite T5; apply pairs_of_sorted, firstn_sorted, sort_sorted|].
  intros p I. rewrite T5.
  assert (I' : In p (sort_by_followers_desc (profiles (cache w))))
    by (eapply Permutation_in; [apply Permutation_sym, sort_perm | exact I]).
  rewrite <- (firstn_skipn 5 (sort_by_followers_desc _)) in I'.
  apply in_app_or in I'. destruct I' as [I'|I'].
  - left. now apply in_map.
  - right. intros q Q. apply in_map_iff in Q. destruct Q as (a & <- & A).
    simpl. eapply sorted_firstn_skipn; [apply sort_sorted | exact A | exact I'].
Qed.

(** X16.  In every state the program reaches, the top profiles of the
    statistics are the first five records of the cache, that is the first
    five records [GET /api/profiles] lists: sorting again what a refresh
    run has sorted changes nothing. *)
Theorem stats_top_5_heads_cache (w : World) (ok : bool) (st : Stats)
        (u : option datetime) :
  reachable env w ->
  body (fst (serve env GET_stats w)) = StatsBody ok st u ->
  top_5_profiles st = map headline (firstn 5 (profiles (cache w))).
Proof.
  intros R. destruct (reachable_sorted env w R) as [S _].
  unfold serve, view.
  destruct (get_stats_cases w) as [[_ G] | [(st' & w' & E & G) | (e & w' & G)]];
    rewrite G; cbn [fst body]; [discriminate | | discriminate].
  intros H. injection H as _ <- _.
  destruct (compute_stats_value _ _ _ _ E) as (_ & _ & _ & _ & _ & T5).
  rewrite T5, (sort_sorted_id _ S). reflexivity.
Qed.


End StatsFacts.

(** ** The summaries after a start *)
Section SummaryFacts.

Variable env : Env.

(** X18.  Once the process has started, [GET /api/health] reports a
    timestamp and a cache age, and its counts of cached profiles and of
    errors add up to the number of usernames tracked; the run counter is
    at least one, and [GET /] reports it with the same number of
    profiles, unless the counter has more than 4300 digits, which no
    answer can print: the status is then 500. *)
Theorem summaries_after_start (w : World) :
  reachable env w ->
  let w1 := step env Boot w in
  (exists n t a m w2,
      serve env GET_health w1
        = ({| status := 200; body := HealthBody n (Some t) (Some a) m |}, w2)
      /\ (n + m = List.length USERNAMES)%nat
      /\ n = List.length (profiles (cache w1)))
  /\ (exists n t k w2,
        serve env GET_index w1
          = (if printable k
             then {| status := 200; body := IndexBody n (Some t) k |}
             else {| status := 500; body := InternalServerError |}, w2)
        /\ n = List.length (profiles (cache w1)) /\ 1 <= k
        /\ k = fetch_count (cache w1)).
Proof.
  intros R w1.
  destruct (reachable_populated env w R) as (_ & _ & (L & T & K)).
  fold w1 in L, T, K.
  destruct (last_update (cache w1)) as [t|] eqn:U; [|contradiction].
  split.
  - eexists _, t, _, _, _. split; [|split; [exact L | reflexivity]].
    unfold serve, view, health_check, bind, read_cache.
    rewrite get_cache_age_minutes_eq. unfold age_value. rewrite U. reflexivity.
  - exists (List.length (profiles (cache w1))), t, (fetch_count (cache w1)), w1.
    split; [|split; [reflexivity | split; [exact K | reflexivity]]].
    unfold serve, view, index, bind, read_cache, jsonify. rewrite U.
    destruct (printable (fetch_count (cache w1))); reflexivity.
Qed.

End SummaryFacts.

(** ** The further properties at work *)

Lemma restart_restores_cache_witness :
  cache (step Sample.flaky Boot (Sample.restart_world (timedelta_minutes 29)))
    = Sample.full_cache (Sample.midnight - timedelta_minutes 29).
Proof.
  refine (proj1 (restart_restores_cache Sample.flaky
                   (Sample.restart_world (timedelta_minutes 29))
                   (Sample.full_cache (Sample.midnight - timedelta_minutes 29))
                   (Sample.midnight - timedelta_minutes 29) eq_refl eq_refl _)).
  reflexivity.
Defined.

Lemma reachable_cache_populated_witness :
  populated (cache Sample.booted).
Proof.
  refine (proj2 (proj2 (reachable_cache_populated Sample.flaky Sample.fresh_world _))).
  apply reach_fresh; reflexivity.
Defined.

Lemma file_mirrors_cache_witness :
  (cache Sample.booted = initial_cache /\ disk Sample.booted = NoFile)
  \/ (disk Sample.booted = Stored (snapshot_of (cache Sample.booted))
      /\ last_update (cache Sample.booted) <> None).
Proof.
  apply (file_mirrors_cache Sample.flaky).
  - intros k. reflexivity.
  - apply reach_step, reach_fresh; reflexivity.
Defined.

Lemma get_routes_only_read_witness :
  untouched Sample.serving_world
            (snd (serve Sample.flaky GET_stats Sample.serving_world)).
Proof.
  refine (proj1 (get_routes_only_read Sample.flaky GET_stats Sample.serving_world _)).
  discriminate.
Defined.

Lemma profiles_filter_spec_witness :
  exists d age w',
    serve Sample.flaky (GET_profiles (Some "True") (Some "100_000_000"))
          Sample.serving_world
      = ({| status := 200;
            body := ProfilesBody true d (Some Sample.midnight) (List.length d)
                                 age [] |}, w')
    /\ d = [Sample.record_of Sample.nike].
Proof.
  destruct (profiles_filter_spec Sample.flaky (Some "True") (Some "100_000_000")
              100000000 Sample.serving_world eq_refl)
    as (d & age & w' & E & D & _).
  exists d, age, w'. split; [exact E | exact D].
Defined.

Lemma malformed_min_followers_witness :
  serve Sample.flaky (GET_profiles None (Some "1e6")) Sample.serving_world
    = ({| status := 500; body := InternalServerError |}, Sample.serving_world).
Proof.
  apply (malformed_min_followers Sample.flaky None "1e6" "e"%char).
  - reflexivity.
  - simpl. tauto.
  - reflexivity.
Defined.


Lemma stats_summary_witness :
  exists st w',
    serve Sample.flaky GET_stats Sample.serving_world
      = ({| status := 200; body := StatsBody true st (Some Sample.midnight) |}, w')
    /\ total_profiles st = 3%nat
    /\ List.length (top_5_profiles st) = 3%nat.
Proof.
  destruct (stats_summary Sample.flaky Sample.serving_world)
    as (st & w' & E & _ & T & _ & L & _).
  - discriminate.
  - split; [repeat constructor | reflexivity].
  - exists st, w'. split; [exact E|]. split; [exact T | exact L].
Defined.

Lemma summaries_after_start_witness :
  exists n t a m w2,
    serve Sample.flaky GET_health Sample.booted
      = ({| status := 200; body := HealthBody n (Some t) (Some a) m |}, w2)
    /\ (n + m = 17)%nat.
Proof.
  destruct (summaries_after_start Sample.flaky Sample.fresh_world)
    as ((n & t & a & m & w2 & E & S & _) & _).
  - apply reach_fresh; reflexivity.
  - exists n, t, a, m, w2. split; [exact E | exact S].
Defined.


Lemma stats_top_5_heads_cache_witness :
  exists st,
    body (fst (serve Sample.flaky GET_stats Sample.booted))
      = StatsBody true st (last_update (cache Sample.booted))
    /\ top_5_profiles st = map headline (firstn 5 (profiles (cache Sample.booted))).
Proof.
  destruct (body (fst (serve Sample.flaky GET_stats Sample.booted))) as [| | | | |ok st u|] eqn:B;
    try (vm_compute in B; discriminate).
  exists st. split.
  - vm_compute in B. injection B as <- <- <-. vm_compute. reflexivity.
  - apply (stats_top_5_heads_cache Sample.flaky Sample.booted ok st u).
    + apply reach_step, reach_fresh; reflexivity.
    + exact B.
Defined.

(** ** A refresh run with the source down, and with the source up *)
Section OutageFacts.

Variable env : Env.

Lemma fetch_fails (n : nat) :
  source_down env ->
  forall (u : string) (rc : nat) (w : World),
    (MAX_RETRIES - rc <= n)%nat ->
    exists m w1,
      fetch_profile_data env u rc w = (Ok (None, Some m), w1)
      /\ PyStr.truthy m = true.
Proof.
  intros Down. induction n as [|n IH]; intros u rc w Hn;
    (destruct (Down (calls w) u) as [e O]; change (outcome env u w = Raise e) in O);
    destruct e;
    try (eexists _, _; split;
         [apply (fetch_other env u rc w _ O eq_refl) | reflexivity]);
    try (eexists _, _; split;
         [apply (fetch_not_exist env u rc w _ O) | reflexivity]).
  - eexists _, _. split; [apply (fetch_exhausted env u rc w _ O); lia | reflexivity].
  - destruct (lt_dec rc (MAX_RETRIES - 1)) as [L|L].
    + rewrite (fetch_retry env u rc w _ O L). apply IH. lia.
    + eexists _, _. split; [apply (fetch_exhausted env u rc w _ O); lia | reflexivity].
Qed.

Lemma fetch_all_down (usernames : list string) :
  source_down env ->
  forall acc w,
  exists es w',
    fetch_all env usernames acc w = (Ok (fst acc, snd acc ++ es), w')
    /\ List.length es = List.length usernames.
Proof.
  intros Down. induction usernames as [|u rest IH]; intros [ps0 es0] w.
  - exists [], w. simpl. rewrite app_nil_r. split; reflexivity.
  - destruct (fetch_fails MAX_RETRIES Down u 0%nat w) as (m & w1 & E & T); [lia|].
    destruct (IH (ps0, es0 ++ [{| err_username := u; err_error := m |}]) w1)
      as (es & w' & E' & L).
    exists ({| err_username := u; err_error := m |} :: es), w'. split.
    + simpl fetch_all. unfold bind. rewrite E. simpl collect. rewrite T, E'.
      cbn [fst snd]. now rewrite <- app_assoc.
    + simpl. now rewrite L.
Qed.

(** X19.  When the source fails at every call, a refresh run still
    returns: it returns no record and one error per username, and it
    installs that in the cache, so that the records cached before the run
    are gone and [GET /api/stats] then says [success: false]. *)
Theorem outage_empties_cache (usernames : list string) (w : World) :
  source_down env ->
  exists es w',
    update_cache_data_over env usernames w = (Ok ([], es), w')
    /\ List.length es = List.length usernames
    /\ profiles (cache w') = []
    /\ errors (cache w') = es
    /\ success_of (body (fst (serve env GET_stats w'))) = Some false.
Proof.
  intros Down.
  destruct (fetch_all_down usernames Down ([], []) w) as (es & w1 & E & L).
  exists es. eexists. cbn [fst snd app] in E.
  rewrite (update_cache_data_over_eq env usernames w w1 _ E).
  split; [reflexivity|]. split; [exact L|]. split; [reflexivity|].
  split; [reflexivity|].
  unfold serve, view. rewrite get_stats_empty; reflexivity.
Qed.

Lemma fetch_all_up (usernames : list string) :
  source_up env ->
  forall acc w,
  exists ps w',
    fetch_all env usernames acc w = (Ok (fst acc ++ ps, snd acc), w')
    /\ List.length ps = List.length usernames
    /\ calls w' = (calls w + List.length usernames)%nat
    /\ slept w' = repeat 2 (List.length usernames) ++ slept w.
Proof.
  intros Up. induction usernames as [|u rest IH]; intros [ps0 es0] w.
  - exists [], w. simpl. rewrite app_nil_r. repeat split. lia.
  - destruct (Up (calls w) u) as [p O]. change (outcome env u w = Ok p) in O.
    pose proof (fetch_success env u 0 w p O) as E.
    set (d := build_record p (env_now env (ticks w)) (engagement_value p)) in E.
    destruct (IH (ps0 ++ [d], es0) (after_success p (attempt_world w)))
      as (ps & w' & E' & L & C & S).
    exists (d :: ps), w'. split; [|split; [|split]].
    + simpl fetch_all. unfold bind. rewrite E. simpl collect. rewrite E'.
      cbn [fst snd]. now rewrite <- app_assoc.
    + simpl. now rewrite L.
    + rewrite C. unfold after_success, engagement_world.
      destruct (p_followers p =? 0); simpl; lia.
    + rewrite S. unfold after_success, engagement_world.
      change (repeat 2 (List.length (u :: rest)))
        with (2 :: repeat 2 (List.length rest)).
      rewrite (repeat_cons (List.length rest) 2), <- app_assoc.
      destruct (p_followers p =? 0); reflexivity.
Qed.

(** X20.  When the source answers every call, a refresh run over [n]
    usernames returns [n] records and no error, calls the source exactly
    [n] times and sleeps 2 seconds before each call and at no other time. *)
Theorem healthy_refresh (usernames : list string) (w : World) :
  source_up env ->
  exists ps w',
    update_cache_data_over env usernames w = (Ok (ps, []), w')
    /\ List.length ps = List.length usernames
    /\ errors (cache w') = []
    /\ calls w' = (calls w + List.length usernames)%nat
    /\ slept w' = repeat 2 (List.length usernames) ++ slept w.
Proof.
  intros Up.
  destruct (fetch_all_up usernames Up ([], []) w) as (ps & w1 & E & L & C & S).
  cbn [fst snd app] in E.
  eexists _, _.
  rewrite (update_cache_data_over_eq env usernames w w1 _ E).
  split; [reflexivity|]. split; [cbn [fst]; now rewrite sort_length|].
  split; [reflexivity|]. split; [exact C | exact S].
Qed.

End OutageFacts.

Lemma outage_empties_cache_witness :
  exists es w',
    update_cache_data_over Sample.unreachable USERNAMES Sample.serving_world
      = (Ok ([], es), w')
    /\ List.length es = 17%nat
    /\ profiles (cache w') = [].
Proof.
  destruct (outage_empties_cache Sample.unreachable USERNAMES Sample.serving_world)
    as (es & w' & E & L & P & _).
  - intros k u. eexists. reflexivity.
  - exists es, w'. split; [exact E|]. split; [exact L | exact P].
Defined.

Lemma healthy_refresh_witness :
  exists ps w',
    update_cache_data_over Sample.healthy USERNAMES Sample.fresh_world
      = (Ok (ps, []), w')
    /\ List.length ps = 17%nat
    /\ calls w' = 17%nat.
Proof.
  destruct (healthy_refresh Sample.healthy USERNAMES Sample.fresh_world)
    as (ps & w' & E & L & _ & C & _).
  - intros k u. eexists. reflexivity.
  - exists ps, w'. split; [exact E|]. split; [exact L | exact C].
Defined.
